(** * Bitcoin price forecasting: the time-series core, embedded in Rocq

    A shallow embedding of the analysis functions of the repository
    ([preprocessing.py], [granger_causality.py], [arima_model.py],
    [var_model.py]) and the properties of its specification that concern
    them.

    Modelling conventions.
    - A Python call either returns a value or raises: [outcome].
    - A [float64] is a real number, one of the two infinities, or NaN.
      Finite arithmetic is exact (rounding error is not modelled), signed
      zeros are not distinguished; the special values follow IEEE 754 as
      numpy applies it.
    - A pandas [DataFrame] of observations is a list of column labels and
      a list of rows, each row carrying its index label (a timestamp).
    - Functions of statsmodels and of a fitted model are not part of the
      repository: they are parameters of the definitions that call them. *)

From Stdlib Require Import Reals Lra Lia ZArith.
From Stdlib Require OrderedTypeEx.
From stdpp Require Import base option list strings pretty gmap sorting.

(** ** Python outcomes *)

Module Py.

(** An exception: the name of its class and its message. *)
Record exn := PyExn { exn_class : string; exn_msg : string }.

Inductive outcome (A : Type) :=
| Returned (a : A)
| Raised (e : exn).
Global Arguments Returned {A} a.
Global Arguments Raised {A} e.

Global Instance outcome_ret : MRet outcome := fun _ a => Returned a.
Global Instance outcome_bind : MBind outcome := fun _ _ f m =>
  match m with
  | Returned a => f a
  | Raised e => Raised e
  end.

Global Instance outcome_fmap : FMap outcome := fun _ _ f m =>
  match m with
  | Returned a => Returned (f a)
  | Raised e => Raised e
  end.

Definition ValueError (msg : string) : exn := PyExn "ValueError" msg.
Definition KeyError (msg : string) : exn := PyExn "KeyError" msg.
Definition IndexError (msg : string) : exn := PyExn "IndexError" msg.

(** [d[k]] on a dictionary. *)
Definition dict_get `{Countable K} {V : Type} (show : K -> string)
    (d : gmap K V) (k : K) : outcome V :=
  match d !! k with
  | Some v => Returned v
  | None => Raised (KeyError (show k))
  end.

(** [l[i]] on a list or array, for an index that is not negative. *)
Definition list_get {A : Type} (l : list A) (i : nat) : outcome A :=
  match l !! i with
  | Some x => Returned x
  | None => Raised (IndexError "index out of range")
  end.

(** [l[-1]] *)
Definition list_last {A : Type} (l : list A) : outcome A :=
  match last l with
  | Some x => Returned x
  | None => Raised (IndexError "index out of range")
  end.

(** [l.index(x)] *)
Definition list_index `{EqDecision A} (x : A) (l : list A) : outcome nat :=
  match list_find (fun y => y = x) l with
  | Some (i, _) => Returned i
  | None => Raised (ValueError "value is not in list")
  end.

(** [l[-n:]]: the last [n] elements, and the whole of [l] when [n] is 0. *)
Definition slice_last {A : Type} (n : nat) (l : list A) : list A :=
  if decide (n = 0) then l else drop (length l - n) l.

(** [str(e)] *)
Definition str_exn (e : exn) : string := exn_msg e.

(** Monadic left fold: a [for] loop whose body may raise. *)
Fixpoint foldM {S X : Type} (body : S -> X -> outcome S) (st : S)
    (xs : list X) : outcome S :=
  match xs with
  | [] => Returned st
  | x :: xs' => st' ← body st x; foldM body st' xs'
  end.

(** Evaluating a list of computations in order: a comprehension whose
    element expression may raise. *)
Fixpoint traverse {X Y : Type} (f : X -> outcome Y) (xs : list X)
    : outcome (list Y) :=
  match xs with
  | [] => Returned []
  | x :: xs' => y ← f x; ys ← traverse f xs'; Returned (y :: ys)
  end.

End Py.
Import Py.

(** ** Floating-point values *)

Module Np.
Local Open Scope R_scope.

Inductive float64 :=
| NaN
| NInf
| PInf
| Fin (r : R).

Global Instance float64_eq_dec : EqDecision float64.
Proof. intros x y. unfold Decision. decide equality. apply Req_dec_T. Defined.

Definition isnan (x : float64) : bool :=
  match x with NaN => true | _ => false end.

Definition fneg (x : float64) : float64 :=
  match x with
  | NaN => NaN
  | NInf => PInf
  | PInf => NInf
  | Fin r => Fin (- r)
  end.

Definition fadd (x y : float64) : float64 :=
  match x, y with
  | NaN, _ | _, NaN => NaN
  | Fin a, Fin b => Fin (a + b)
  | PInf, NInf | NInf, PInf => NaN
  | PInf, _ | _, PInf => PInf
  | NInf, _ | _, NInf => NInf
  end.

Definition fsub (x y : float64) : float64 := fadd x (fneg y).

(** The infinity with the sign of [r], NaN when [r] is zero. *)
Definition signed_inf (r : R) : float64 :=
  if Rlt_dec 0 r then PInf else if Rlt_dec r 0 then NInf else NaN.

Definition fmul (x y : float64) : float64 :=
  match x, y with
  | NaN, _ | _, NaN => NaN
  | Fin a, Fin b => Fin (a * b)
  | PInf, Fin r | Fin r, PInf => signed_inf r
  | NInf, Fin r | Fin r, NInf => signed_inf (- r)
  | PInf, PInf | NInf, NInf => PInf
  | PInf, NInf | NInf, PInf => NaN
  end.

(** Division as pandas performs it: a zero divisor gives an infinity
    (or NaN for 0/0), never an exception. *)
Definition fdiv (x y : float64) : float64 :=
  match x, y with
  | NaN, _ | _, NaN => NaN
  | Fin a, Fin b =>
      if Req_dec_T b 0 then signed_inf a else Fin (a / b)
  | Fin _, (PInf | NInf) => Fin 0
  | PInf, Fin b => if Rlt_dec b 0 then NInf else PInf
  | NInf, Fin b => if Rlt_dec b 0 then PInf else NInf
  | (PInf | NInf), (PInf | NInf) => NaN
  end.

(** [np.log] *)
Definition np_log (x : float64) : float64 :=
  match x with
  | NaN | NInf => NaN
  | PInf => PInf
  | Fin r =>
      if Rlt_dec 0 r then Fin (ln r)
      else if Req_dec_T r 0 then NInf else NaN
  end.

(** [np.exp] *)
Definition np_exp (x : float64) : float64 :=
  match x with
  | NaN => NaN
  | NInf => Fin 0
  | PInf => PInf
  | Fin r => Fin (exp r)
  end.

(** [np.sqrt] *)
Definition np_sqrt (x : float64) : float64 :=
  match x with
  | NaN | NInf => NaN
  | PInf => PInf
  | Fin r => if Rlt_dec r 0 then NaN else Fin (sqrt r)
  end.

(** The comparison [x < y] of two floats: false as soon as one is NaN. *)
Definition flt (x y : float64) : bool :=
  match x, y with
  | NaN, _ | _, NaN => false
  | Fin a, Fin b => if Rlt_dec a b then true else false
  | NInf, (Fin _ | PInf) => true
  | Fin _, PInf => true
  | _, _ => false
  end.

(** The order [x <= y] of two floats as a proposition. *)
Definition fle (x y : float64) : Prop :=
  match x, y with
  | NaN, _ | _, NaN => False
  | Fin a, Fin b => a <= b
  | NInf, _ => True
  | _, PInf => True
  | _, _ => False
  end.

(** The integer part towards minus infinity. *)
Definition Rfloor (r : R) : Z := (up r - 1)%Z.

(** [round(x, ndigits)] on a float: to the nearest multiple of
    [10^-ndigits], a tie going to the even one. *)
Definition py_round (x : float64) (ndigits : nat) : float64 :=
  match x with
  | Fin r =>
      let s := 10 ^ ndigits in
      let y := r * s in
      let n := Rfloor y in
      let d := y - IZR n in
      if Rlt_dec d (1 / 2) then Fin (IZR n / s)
      else if Rlt_dec (1 / 2) d then Fin (IZR (n + 1) / s)
      else if Z.even n then Fin (IZR n / s)
      else Fin (IZR (n + 1) / s)
  | _ => x
  end.

(** [np.cumsum] of a one-dimensional array: the running sums, each the
    previous one plus the next element. *)
Fixpoint cumsum_from (acc : float64) (xs : list float64) : list float64 :=
  match xs with
  | [] => []
  | x :: xs' => let acc' := fadd acc x in acc' :: cumsum_from acc' xs'
  end.

Definition cumsum (xs : list float64) : list float64 :=
  match xs with
  | [] => []
  | x :: xs' => x :: cumsum_from x xs'
  end.

(** An elementwise operation on two one-dimensional arrays, with numpy's
    broadcasting: equal lengths, or one operand of length one. *)
Definition broadcast2 (op : float64 -> float64 -> float64)
    (xs ys : list float64) : outcome (list float64) :=
  if decide (length xs = length ys) then Returned (zip_with op xs ys)
  else match xs, ys with
       | [x], _ => Returned (map (op x) ys)
       | _, [y] => Returned (map (fun x => op x y) xs)
       | _, _ =>
           Raised (ValueError "operands could not be broadcast together")
       end.

(** The builtin [min] on floats: the first element is kept until a later
    one compares strictly below it; an empty argument raises. *)
Definition py_min (xs : list float64) : outcome float64 :=
  match xs with
  | [] => Raised (ValueError "min() arg is an empty sequence")
  | x :: xs' => Returned (fold_left (fun m y => if flt y m then y else m) xs' x)
  end.

Global Arguments fdiv : simpl never.
Global Arguments np_log : simpl never.
Global Arguments np_sqrt : simpl never.
Global Arguments py_round : simpl never.

End Np.
Import Np.

(** ** pandas objects *)

Module Pd.

(** A timestamp, in nanoseconds since the epoch. *)
Definition Timestamp := Z.

(** [pd.Timedelta(days=n)] *)
Definition Timedelta_days (n : Z) : Z := (n * 86400000000000)%Z.

(** [pd.date_range(start=start, periods=periods, freq="D")] *)
Definition date_range (start : Timestamp) (periods : nat) : list Timestamp :=
  map (fun i : nat => (start + Timedelta_days (Z.of_nat i))%Z) (seq 0 periods).

Record DataFrame := mkDataFrame {
  columns : list string;
  rows : list (Timestamp * list float64)
}.

(** [df.index] and [df.values] *)
Definition index (df : DataFrame) : list Timestamp := map fst (rows df).
Definition values (df : DataFrame) : list (list float64) := map snd (rows df).

(** Every row has one cell per column. *)
Definition rectangular (df : DataFrame) : Prop :=
  Forall (fun row => length (snd row) = length (columns df)) (rows df).

(** [df.shift(1)]: every row takes the cells of the row before it, the
    first row is filled with NaN; the index is unchanged. *)
Fixpoint shift_cells (prev : list float64)
    (rs : list (Timestamp * list float64)) : list (Timestamp * list float64) :=
  match rs with
  | [] => []
  | (t, cells) :: rs' => (t, prev) :: shift_cells cells rs'
  end.

Definition shift1 (df : DataFrame) : DataFrame :=
  {| columns := columns df;
     rows := shift_cells (replicate (length (columns df)) NaN) (rows df) |}.

(** [a / b] for two frames with the same index and columns: cell by cell. *)
Definition div (a b : DataFrame) : DataFrame :=
  {| columns := columns a;
     rows := zip_with (fun ra rb => (fst ra, zip_with fdiv (snd ra) (snd rb)))
                      (rows a) (rows b) |}.

(** A numpy function applied to a frame: cell by cell. *)
Definition map_cells (f : float64 -> float64) (df : DataFrame) : DataFrame :=
  {| columns := columns df;
     rows := map (fun r => (fst r, map f (snd r))) (rows df) |}.

(** [df.dropna()]: the rows with no NaN cell. *)
Definition row_complete (r : Timestamp * list float64) : bool :=
  forallb (fun x => negb (isnan x)) (snd r).

Definition dropna (df : DataFrame) : DataFrame :=
  {| columns := columns df; rows := filter row_complete (rows df) |}.

(** The cell in row [t] (by position) and column [c] (by position). *)
Definition cell (df : DataFrame) (t c : nat) : option float64 :=
  r ← rows df !! t; snd r !! c.

(** The position of a label among the column labels. *)
Definition col_pos (name : string) (cols : list string) : option nat :=
  fst <$> list_find (fun c => c = name) cols.

(** [df[[n1, n2, ...]]]: the frame of the named columns, in that order;
    a label that is not a column raises [KeyError]. *)
Definition getitem_cols (df : DataFrame) (names : list string)
    : outcome DataFrame :=
  ps ← traverse (fun n => match col_pos n (columns df) with
                      | Some i => Returned i
                      | None => Raised (KeyError n)
                      end) names;
  Returned {| columns := names;
              rows := map (fun r => (fst r, map (fun i => nth i (snd r) NaN) ps))
                          (rows df) |}.

(** A column of a frame: its name and its labelled values. *)
Record Series := mkSeries {
  name : string;
  entries : list (Timestamp * float64)
}.

(** [df[n]] *)
Definition getitem (df : DataFrame) (n : string) : outcome Series :=
  match col_pos n (columns df) with
  | Some i =>
      Returned {| name := n;
                  entries := map (fun r => (fst r, nth i (snd r) NaN)) (rows df) |}
  | None => Raised (KeyError n)
  end.

(** [s.dropna()] *)
Definition series_dropna (s : Series) : Series :=
  {| name := name s;
     entries := filter (fun e => negb (isnan (snd e))) (entries s) |}.

(** [s.cumsum().values]: pandas skips NaN, that is, a NaN entry counts as
    zero in the running sum and is NaN in the result. *)
Definition skipna_cumsum (vals : list float64) : list float64 :=
  zip_with (fun x c => if isnan x then NaN else c)
           vals
           (cumsum (map (fun x => if isnan x then Fin 0 else x) vals)).

Definition series_cumsum (s : Series) : list float64 :=
  skipna_cumsum (snd <$> entries s).

(** [s.iloc[-1]] *)
Definition iloc_last (s : Series) : outcome float64 :=
  match last (entries s) with
  | Some e => Returned (snd e)
  | None => Raised (IndexError "single positional indexer is out-of-bounds")
  end.

(** A forecast table: one row per future date. *)
Record forecast_row := mk_forecast_row {
  Date : Timestamp;
  Forecast : float64;
  Lower_CI : float64;
  Upper_CI : float64
}.

(** [pd.DataFrame({"Forecast": fc, "Lower_CI": lo, "Upper_CI": up},
    index=idx)]: every array must be as long as the index. *)
Definition forecast_frame (fc lo up : list float64) (idx : list Timestamp)
    : outcome (list forecast_row) :=
  if decide (length fc = length idx /\ length lo = length idx
             /\ length up = length idx)
  then Returned
         (zip_with (fun d v => mk_forecast_row d v.1.1 v.1.2 v.2)
                   idx (zip (zip fc lo) up))
  else Raised (ValueError "Length of values does not match length of index").

(** [pd.DataFrame(array, columns=cols)]: rows numbered from 0; every row of
    the array must have one value per column. *)
Definition frame_of_array (a : list (list float64)) (cols : list string)
    : outcome DataFrame :=
  if decide (Forall (fun r => length r = length cols) a)
  then Returned {| columns := cols; rows := imap (fun i r => (Z.of_nat i, r)) a |}
  else Raised (ValueError "Shape of passed values does not match the columns").

End Pd.
Import Pd.

(** ** preprocessing.py *)

Module Preprocessing.

(** [log_returns]: [np.log(df / df.shift(1)).dropna()] *)
Definition log_returns (df : DataFrame) : outcome DataFrame :=
  Returned (dropna (map_cells np_log (div df (shift1 df)))).

(** What statsmodels' [adfuller] returns: [(adfstat, pvalue, usedlag, nobs,
    critical values, icbest)]. *)
Record adfuller_result := mk_adfuller_result {
  adfstat : float64;
  pvalue : float64;
  usedlag : nat;
  nobs : nat;
  critvalues : gmap string float64;
  icbest : float64
}.

(** The dictionary [adf_test] returns. *)
Record adf_report := mk_adf_report {
  report_Series : string;
  report_ADF_Statistic : float64;
  report_p_value : float64;
  report_1pct : float64;
  report_5pct : float64;
  report_10pct : float64;
  report_Result : string
}.

Section AdfTest.

(** [adfuller(x, autolag=...)] of statsmodels. *)
Variable adfuller : list float64 -> string -> outcome adfuller_result.

Definition adf_test (series : Series) (label : string) : outcome adf_report :=
  result ← adfuller (snd <$> entries (series_dropna series)) "AIC";
  let verdict :=
    if flt (pvalue result) (Fin 0.05) then "Stationary" else "Non-Stationary" in
  c1 ← dict_get (fun k => k) (critvalues result) "1%";
  c5 ← dict_get (fun k => k) (critvalues result) "5%";
  c10 ← dict_get (fun k => k) (critvalues result) "10%";
  Returned {| report_Series := if decide (label = "") then name series else label;
              report_ADF_Statistic := py_round (adfstat result) 4;
              report_p_value := py_round (pvalue result) 4;
              report_1pct := py_round c1 4;
              report_5pct := py_round c5 4;
              report_10pct := py_round c10 4;
              report_Result := verdict |}.

End AdfTest.

(** A price is a finite, strictly positive number. *)
Definition positive (x : float64) : Prop := exists p : R, x = Fin p /\ (0 < p)%R.

Definition positive_prices (df : DataFrame) : Prop :=
  Forall (fun r => Forall positive (snd r)) (rows df).

(** The rows of [np.log(df / df.shift(1))], before [dropna]. *)
Fixpoint ratio_rows (prev : list float64)
    (rs : list (Timestamp * list float64)) : list (Timestamp * list float64) :=
  match rs with
  | [] => []
  | r :: rs' =>
      (fst r, zip_with (fun a b => np_log (fdiv a b)) (snd r) prev)
        :: ratio_rows (snd r) rs'
  end.

End Preprocessing.
Import Preprocessing.

(** ** granger_causality.py *)

Module GrangerCausality.

(** The tests statsmodels reports for one lag; of these the code reads
    [ssr_ftest], a tuple [(F, p-value, df_denom, df_num)]. *)
Record lag_tests := mk_lag_tests {
  ssr_ftest : float64 * float64 * float64 * float64
}.

Definition ssr_ftest_pvalue (t : lag_tests) : float64 := snd (fst (fst (ssr_ftest t))).

(** A square table over the series names, addressed as [m.loc[row, col]]. *)
Definition full {A : Type} (cols : list string) (v : A) : gmap (string * string) A :=
  list_to_map ((fun k => (k, v)) <$> list_prod cols cols).

(** The two matrices under construction and what has been printed. *)
Record state := mk_state {
  matrix : gmap (string * string) bool;
  p_matrix : gmap (string * string) float64;
  stdout : list string
}.

(** One record of the summary. *)
Record summary_row := mk_summary_row {
  Cause : string;
  Effect : string;
  Min_p_value : float64;
  Significant : string
}.

(** The line printed when the test of a pair fails. *)
Definition failure_line (cause effect : string) (e : exn) : string :=
  "  Granger test failed for " +:+ cause +:+ " → " +:+ effect +:+ ": " +:+ str_exn e.

(** The order of [sort_values(["Significant", "Min_p_value"],
    ascending=[False, True])]: [Significant] descending, then
    [Min_p_value] ascending with NaN last. *)
Definition p_le (a b : float64) : bool :=
  match a, b with
  | _, NaN => true
  | NaN, _ => false
  | _, _ => negb (flt b a)
  end.

Definition row_le (a b : summary_row) : bool :=
  match String.compare (Significant a) (Significant b) with
  | Gt => true
  | Lt => false
  | Eq => p_le (Min_p_value a) (Min_p_value b)
  end.

(** Two records have the same sort key: the same flag and the same
    p-value (NaN and NaN count as the same). *)
Definition same_key (a b : summary_row) : Prop :=
  Significant a = Significant b /\ Min_p_value a = Min_p_value b.

Global Instance same_key_dec (a b : summary_row) : Decision (same_key a b).
Proof. unfold same_key. apply _. Defined.

(** A stable sort, as pandas' sort on several keys is: an element goes
    before the first element it does not exceed. *)
Fixpoint insert_sorted {A : Type} (le : A -> A -> bool) (x : A) (l : list A)
    : list A :=
  match l with
  | [] => [x]
  | y :: l' => if le x y then x :: l else y :: insert_sorted le x l'
  end.

Definition stable_sort {A : Type} (le : A -> A -> bool) (l : list A) : list A :=
  foldr (insert_sorted le) [] l.

(** [DataFrame(rows).sort_values(...)]: a frame built from no record has
    no column to sort by. *)
Definition sort_values (rs : list summary_row) : outcome (list summary_row) :=
  match rs with
  | [] => Raised (KeyError "Significant")
  | _ => Returned (stable_sort row_le rs)
  end.

Section WithTests.

(** [grangercausalitytests(data, maxlag=..., verbose=False)] of statsmodels:
    a dictionary from the lag to its tests. *)
Variable grangercausalitytests : DataFrame -> nat -> outcome (gmap nat lag_tests).

(** The body of the [try]: the smallest F-test p-value over the lags
    [1..max_lag]. *)
Definition min_p_value (data : DataFrame) (max_lag : nat) : outcome float64 :=
  result ← grangercausalitytests data max_lag;
  ps ← traverse (fun lag => ssr_ftest_pvalue <$> dict_get pretty result lag)
                (seq 1 max_lag);
  py_min ps.

Section Loops.
Variables (returns : DataFrame) (max_lag : nat) (significance : float64).

(** The body of the inner loop of [granger_matrix]. *)
Definition pair_body (st : state) (cause effect : string) : outcome state :=
  if decide (cause = effect) then Returned st
  else
    data ← dropna <$> getitem_cols returns [effect; cause];
    match min_p_value data max_lag with
    | Returned min_p =>
        Returned
          {| p_matrix := <[(cause, effect) := py_round min_p 4]> (p_matrix st);
             matrix := if flt min_p significance
                       then <[(cause, effect) := true]> (matrix st)
                       else matrix st;
             stdout := stdout st |}
    | Raised e =>
        Returned {| p_matrix := p_matrix st;
                    matrix := matrix st;
                    stdout := stdout st ++ [failure_line cause effect e] |}
    end.

(** [granger_matrix]: the pair [(matrix, p_matrix)], with the lines it
    printed. *)
Definition granger_matrix : outcome state :=
  let cols := columns returns in
  foldM (fun st cause => foldM (fun st effect => pair_body st cause effect) st cols)
        {| matrix := full cols false; p_matrix := full cols NaN; stdout := [] |}
        cols.

(** The loop of [granger_summary] that collects the records. *)
Definition summary_body (p_matrix : gmap (string * string) float64)
    (rs : list summary_row) (cause effect : string) : outcome (list summary_row) :=
  if decide (cause = effect) then Returned rs
  else
    p ← dict_get (fun k => fst k +:+ ", " +:+ snd k) p_matrix (cause, effect);
    Returned (rs ++ [{| Cause := cause;
                        Effect := effect;
                        Min_p_value := p;
                        Significant := if flt p significance then "Yes" else "No" |}]).

Definition summary_rows (p_matrix : gmap (string * string) float64)
    : outcome (list summary_row) :=
  let cols := columns returns in
  foldM (fun rs cause => foldM (fun rs effect => summary_body p_matrix rs cause effect) rs cols)
        [] cols.

(** [granger_summary]: the sorted records, renumbered from 0. *)
Definition granger_summary : outcome (list summary_row) :=
  st ← granger_matrix;
  rs ← summary_rows (p_matrix st);
  sort_values rs.

(** The outcome of the test of one ordered pair: what the [try] computes. *)
Definition pair_test (cause effect : string) : outcome float64 :=
  data ← dropna <$> getitem_cols returns [effect; cause];
  min_p_value data max_lag.

(** What the loop writes for one pair, if anything. *)
Definition written (k : string * string) : option (float64 * bool) :=
  if decide (fst k = snd k) then None
  else match pair_test (fst k) (snd k) with
       | Returned min_p => Some (py_round min_p 4, flt min_p significance)
       | Raised _ => None
       end.

(** What the loop prints for one pair, if anything. *)
Definition printed (k : string * string) : option string :=
  if decide (fst k = snd k) then None
  else match pair_test (fst k) (snd k) with
       | Returned _ => None
       | Raised e => Some (failure_line (fst k) (snd k) e)
       end.

Definition pair_step (st : state) (k : string * string) : outcome state :=
  pair_body st (fst k) (snd k).

(** The record the loop appends for one pair, if any. *)
Definition row_of (pm : gmap (string * string) float64) (k : string * string)
    : option summary_row :=
  if decide (fst k = snd k) then None
  else p ← pm !! k;
       Some {| Cause := fst k;
               Effect := snd k;
               Min_p_value := p;
               Significant := if flt p significance then "Yes" else "No" |}.

End Loops.
End WithTests.

End GrangerCausality.
Import GrangerCausality.

(** ** arima_model.py *)

Module ArimaModel.

(** What [get_forecast] of a fitted statsmodels ARIMA returns: the predicted
    means and, for a level [alpha], the lower and upper bound at each
    step. *)
Record PredictionResults := mk_PredictionResults {
  predicted_mean : list float64;
  conf_int : float64 -> list (float64 * float64)
}.

(** A fitted ARIMA model, as far as [forecast_arima] uses it:
    [get_forecast(steps=...)] and the dates [model.data.dates]. *)
Record ARIMAResults := mk_ARIMAResults {
  get_forecast : nat -> outcome PredictionResults;
  model_data_dates : list Timestamp
}.

Definition forecast_arima (fitted_model : ARIMAResults) (last_price : float64)
    (steps : nat) (alpha : float64) : outcome (list forecast_row) :=
  forecast_obj ← get_forecast fitted_model steps;
  let mean_log := predicted_mean forecast_obj in
  let ci_log := conf_int forecast_obj alpha in
  let forecast_price := map np_exp mean_log in
  let lower_price := map (fun b => np_exp (fst b)) ci_log in
  let upper_price := map (fun b => np_exp (snd b)) ci_log in
  last_date ← list_last (model_data_dates fitted_model);
  let future_dates := date_range (last_date + Timedelta_days 1)%Z steps in
  forecast_frame forecast_price lower_price upper_price future_dates.

End ArimaModel.
Import ArimaModel.

(** ** var_model.py *)

Module VarModel.

(** A fitted VAR model, as far as [forecast_var] uses it: the lag order
    [k_ar], [forecast(y=..., steps=...)] (a [steps] by [k] array) and
    [forecast_cov(steps=...)] ([steps] matrices, [k] by [k]). *)
Record VARResults := mk_VARResults {
  k_ar : nat;
  forecast : list (list float64) -> nat -> outcome (list (list float64));
  forecast_cov : nat -> outcome (list (list (list float64)))
}.

(** [[fc_cov[t][btc_idx, btc_idx] for t in range(steps)]] *)
Definition step_variances (fc_cov : list (list (list float64))) (btc_idx steps : nat)
    : outcome (list float64) :=
  traverse (fun t => m ← list_get fc_cov t;
                     r ← list_get m btc_idx;
                     list_get r btc_idx)
           (seq 0 steps).

(** [np.sqrt(np.cumsum(step_var))] *)
Definition cumulative_se (step_var : list float64) : list float64 :=
  map np_sqrt (cumsum step_var).

(** The constant the code multiplies the standard error by. *)
Definition z : float64 := Fin 1.959964.

Definition forecast_var (fitted_model : VARResults) (returns prices : DataFrame)
    (steps : nat) (alpha : float64) : outcome (list forecast_row) :=
  let lag := k_ar fitted_model in
  let y_past := slice_last lag (values returns) in
  fc_array ← forecast fitted_model y_past steps;
  fc_df ← frame_of_array fc_array (columns returns);
  fc_cov ← forecast_cov fitted_model steps;
  btc_idx ← list_index "Bitcoin" (columns returns);
  btc_prices ← getitem prices "Bitcoin";
  last_price ← iloc_last btc_prices;
  let last_log_price := np_log last_price in
  btc_returns ← getitem fc_df "Bitcoin";
  let cum_returns := series_cumsum btc_returns in
  step_var ← step_variances fc_cov btc_idx steps;
  let cum_se := cumulative_se step_var in
  let log_fc := map (fadd last_log_price) cum_returns in
  log_lower ← broadcast2 fsub log_fc (map (fmul z) cum_se);
  log_upper ← broadcast2 fadd log_fc (map (fmul z) cum_se);
  last_date ← list_last (index returns);
  let future_dates := date_range (last_date + Timedelta_days 1)%Z steps in
  forecast_frame (map np_exp log_fc) (map np_exp log_lower) (map np_exp log_upper)
                 future_dates.

(** A variance that is a number, zero or more, or plus infinity. *)
Definition nonneg (v : float64) : Prop := fle (Fin 0) v.

(** Each element is at most the next one. *)
Definition nondecreasing (l : list float64) : Prop :=
  forall (h : nat) a b, l !! h = Some a -> l !! S h = Some b -> fle a b.

(** A value that is not below zero: zero or more, plus infinity, or NaN. *)
Definition not_negative (v : float64) : Prop := v = NaN \/ fle (Fin 0) v.

(** The sum of a list of reals. *)
Definition Rsum (rs : list R) : R := foldr Rplus 0%R rs.

(** The sum of the first [h + 1] elements, added from the left. *)
Definition sum_upto (xs : list float64) (h : nat) : float64 :=
  match take (S h) xs with
  | [] => NaN
  | x :: r => fold_left fadd r x
  end.

End VarModel.
Import VarModel.

(** ** preprocessing.py: the stationarity summary *)

Module AdfSummary.

(** What [print] writes: a line of text, or a table of test reports. *)
Inductive print_item :=
| PrintText (s : string)
| PrintReports (rs : list adf_report).

(** [pd.DataFrame(rows).set_index("Series")]: the reports, indexed by their
    label; a frame built from no record has no column to index by. *)
Definition summary_frame (rs : list adf_report) : outcome (list adf_report) :=
  match rs with
  | [] => Raised (KeyError "None of ['Series'] are in the columns")
  | _ => Returned rs
  end.

Section WithAdfuller.

Variable adfuller : list float64 -> string -> outcome adfuller_result.

(** [run_adf_tests]: [adf_test(df[col], col)] for every column, in order. *)
Definition run_adf_tests (df : DataFrame) : outcome (list adf_report) :=
  rs ← traverse (fun col => s ← getitem df col; adf_test adfuller s col)
                (columns df);
  summary_frame rs.

(** [prepare_var_data]: the returns and what was printed. *)
Definition prepare_var_data (prices : DataFrame)
    : outcome (DataFrame * list print_item) :=
  returns ← log_returns prices;
  adf_summary ← run_adf_tests returns;
  let non_stat :=
    filter (fun r => report_Result r = "Non-Stationary") adf_summary in
  Returned
    (returns,
     match non_stat with
     | [] => []
     | _ =>
         [PrintText
            "WARNING: the following log-return series are still non-stationary:";
          PrintReports non_stat]
     end).

End WithAdfuller.

End AdfSummary.
Import AdfSummary.

(** ** Sample tables *)

Module Samples.

(** A one-column table of daily Bitcoin prices, the first day being day 0. *)
Definition btc_frame (prices : list float64) : DataFrame :=
  {| columns := ["Bitcoin"];
     rows := imap (fun i x => (Timedelta_days (Z.of_nat i), [x])) prices |}.

Definition week_prices : DataFrame :=
  btc_frame [Fin 100; Fin 101; Fin 99; Fin 103; Fin 102; Fin 105; Fin 108].

Definition single_row : DataFrame := btc_frame [Fin 100].

Definition zero_price : DataFrame := btc_frame [Fin 100; Fin 0; Fin 50].

(** A series of 100 identical values. *)
Definition constant_series : Series :=
  {| name := "x";
     entries := imap (fun i x => (Timedelta_days (Z.of_nat i), x))
                     (replicate 100 (Fin 1)) |}.

(** The answer of [adfuller] to a constant series: statsmodels refuses
    it. *)
Definition adfuller_refusing (x : list float64) (autolag : string)
    : outcome adfuller_result :=
  Raised (ValueError "Invalid input, x is constant").

(** Returns of two series over three days. *)
Definition two_series : DataFrame :=
  {| columns := ["Bitcoin"; "Gold"];
     rows := [(Timedelta_days 1, [Fin 0.01; Fin 0.002]);
              (Timedelta_days 2, [Fin (-0.02); Fin 0.001]);
              (Timedelta_days 3, [Fin 0.005; Fin (-0.003)])] |}.

(** A Granger test that reports the p-value [p] at every lag. *)
Definition tests_with_p (p : float64) (data : DataFrame) (maxlag : nat)
    : outcome (gmap nat lag_tests) :=
  Returned (list_to_map
              ((fun lag => (lag, {| ssr_ftest := (Fin 20, p, Fin 10, Fin (INR lag)) |}))
                 <$> seq 1 maxlag)).

(** A Granger test that cannot be computed when [effect] is the series to
    be predicted, and reports the p-value 0.2 otherwise. *)
Definition tests_failing_on (effect : string) (data : DataFrame) (maxlag : nat)
    : outcome (gmap nat lag_tests) :=
  if decide (head (columns data) = Some effect)
  then Raised (ValueError "Insufficient observations")
  else tests_with_p (Fin 0.2) data maxlag.

(** A fitted ARIMA model in the manner of a random walk: the mean stays at
    [mu], the band widens by [w] at each step. *)
Definition walk_forecast (mu w : R) (steps : nat) : PredictionResults :=
  {| predicted_mean := replicate steps (Fin mu);
     conf_int := fun _ =>
       map (fun i : nat => (Fin (mu - w * INR (S i)), Fin (mu + w * INR (S i))))
           (seq 0 steps) |}.

Definition walk_model : ARIMAResults :=
  {| get_forecast := fun steps => Returned (walk_forecast 11 0.1 steps);
     model_data_dates := map (fun i : nat => Timedelta_days (Z.of_nat i)) (seq 0 7) |}.

(** A fitted VAR(1) model of the two series whose forecast of every return
    is 0.01, with own variance 0.0004 at every step. *)
Definition flat_var : VARResults :=
  {| k_ar := 1;
     forecast := fun _ steps => Returned (replicate steps [Fin 0.01; Fin 0.01]);
     forecast_cov := fun steps =>
       Returned (replicate steps [[Fin 0.0004; Fin 0]; [Fin 0; Fin 0.0004]]) |}.

(** Prices of the two series over three days. *)
Definition two_prices : DataFrame :=
  {| columns := ["Bitcoin"; "Gold"];
     rows := [(Timedelta_days 0, [Fin 100; Fin 2000]);
              (Timedelta_days 1, [Fin 101; Fin 2004]);
              (Timedelta_days 2, [Fin 99; Fin 2006])] |}.

(** An answer of [adfuller] that rejects the unit root clearly. *)
Definition adfuller_stationary (x : list float64) (autolag : string)
    : outcome adfuller_result :=
  Returned {| adfstat := Fin (-12.3456);
              pvalue := Fin 0.0001;
              usedlag := 1;
              nobs := 98;
              critvalues := {[ "1%" := Fin (-3.4982); "5%" := Fin (-2.8912);
                               "10%" := Fin (-2.5827) ]};
              icbest := Fin (-500) |}.

(** An answer of [adfuller] that needs at least one observation. *)
Definition adfuller_needing_data (x : list float64) (autolag : string)
    : outcome adfuller_result :=
  match x with
  | [] => Raised (ValueError "sample size is too short to use selected regression component")
  | _ => adfuller_stationary x autolag
  end.

(** Returns of two series, the second of which was never observed. *)
Definition gold_missing : DataFrame :=
  {| columns := ["Bitcoin"; "Gold"];
     rows := [(Timedelta_days 1, [Fin 0.01; NaN]);
              (Timedelta_days 2, [Fin (-0.02); NaN]);
              (Timedelta_days 3, [Fin 0.005; NaN])] |}.

(** An answer of [adfuller] that does not reject the unit root. *)
Definition adfuller_unit_root (x : list float64) (autolag : string)
    : outcome adfuller_result :=
  Returned {| adfstat := Fin (-1.2);
              pvalue := Fin 0.67;
              usedlag := 1;
              nobs := 98;
              critvalues := {[ "1%" := Fin (-3.4982); "5%" := Fin (-2.8912);
                               "10%" := Fin (-2.5827) ]};
              icbest := Fin (-500) |}.

(** The returns of [two_series] with a third series beside them. *)
Definition three_series : DataFrame :=
  {| columns := ["Bitcoin"; "Gold"; "SP500"];
     rows := [(Timedelta_days 1, [Fin 0.01; Fin 0.002; Fin 0.004]);
              (Timedelta_days 2, [Fin (-0.02); Fin 0.001; Fin (-0.007)]);
              (Timedelta_days 3, [Fin 0.005; Fin (-0.003); Fin 0.001])] |}.

(** Returns of a single series that is not the target. *)
Definition gold_only : DataFrame :=
  {| columns := ["Gold"];
     rows := [(Timedelta_days 1, [Fin 0.002]); (Timedelta_days 2, [Fin 0.001])] |}.

(** The returns of [two_series] without their first day. *)
Definition two_series_recent : DataFrame :=
  {| columns := ["Bitcoin"; "Gold"];
     rows := [(Timedelta_days 2, [Fin (-0.02); Fin 0.001]);
              (Timedelta_days 3, [Fin 0.005; Fin (-0.003)])] |}.

(** A fitted ARIMA model of the Bitcoin prices of [two_prices]. *)
Definition price_walk : ARIMAResults :=
  {| get_forecast := fun steps => Returned (walk_forecast 4.6 0.1 steps);
     model_data_dates := index two_prices |}.

End Samples.

(** * Properties *)

(** ** Floating-point lemmas *)

Section FloatFacts.
Local Open Scope R_scope.

Lemma np_log_pos (r : R) : 0 < r -> np_log (Fin r) = Fin (ln r).
Proof. intros H. unfold np_log. destruct (Rlt_dec 0 r); [done | contradiction]. Qed.

Lemma fdiv_fin (a b : R) : b <> 0 -> fdiv (Fin a) (Fin b) = Fin (a / b).
Proof. intros H. unfold fdiv. destruct (Req_dec_T b 0); [contradiction | done]. Qed.

Lemma log_ratio_pos (p q : R) :
  0 < p -> 0 < q -> np_log (fdiv (Fin p) (Fin q)) = Fin (ln (p / q)).
Proof.
  intros Hp Hq. rewrite fdiv_fin by lra. apply np_log_pos.
  apply Rdiv_lt_0_compat; assumption.
Qed.

End FloatFacts.

(** ** log_returns *)

Section LogReturns.
Local Open Scope R_scope.

Lemma log_div_shift_rows prev rs :
  map (fun r => (fst r, map np_log (snd r)))
      (zip_with (fun ra rb => (fst ra, zip_with fdiv (snd ra) (snd rb)))
                rs (shift_cells prev rs))
  = ratio_rows prev rs.
Proof.
  revert prev. induction rs as [|[t cells] rs IH]; intros prev; [done|].
  cbn [shift_cells zip_with map ratio_rows fst snd]. f_equal.
  - f_equal. clear. revert prev.
    induction cells as [|a cells IH]; intros [|b prev]; cbn; [done..|].
    by rewrite IH.
  - apply IH.
Qed.

Lemma log_returns_rows df :
  log_returns df =
  Returned {| columns := columns df;
              rows := filter row_complete
                        (ratio_rows (replicate (length (columns df)) NaN) (rows df)) |}.
Proof.
  unfold log_returns, dropna, map_cells, div, shift1. cbn [columns rows].
  by rewrite log_div_shift_rows.
Qed.

(** Against a row of NaN every ratio is NaN: the first row is dropped as
    soon as the frame has a column. *)
Lemma first_row_incomplete (t : Timestamp) cells n :
  length cells = n -> (0 < n)%nat ->
  row_complete (t, zip_with (fun a b => np_log (fdiv a b)) cells (replicate n NaN))
  = false.
Proof.
  intros Hlen Hn. destruct cells as [|a cells]; cbn in Hlen; [lia|].
  destruct n as [|n]; [lia|]. unfold row_complete. cbn.
  by destruct a.
Qed.

Lemma zip_log_ratio_complete cells prev :
  Forall positive cells -> Forall positive prev ->
  forallb (fun x => negb (isnan x))
          (zip_with (fun a b => np_log (fdiv a b)) cells prev) = true.
Proof.
  intros Hc. revert prev. induction Hc as [|a cells [p [-> Hp]] _ IH];
    intros prev Hprev; [done|].
  destruct Hprev as [|b prev [q [-> Hq]] Hprev]; [done|].
  cbn [zip_with forallb]. rewrite log_ratio_pos by assumption. cbn.
  by apply IH.
Qed.

Lemma ratio_rows_complete prev rs :
  Forall positive prev ->
  Forall (fun r => Forall positive (snd r)) rs ->
  filter row_complete (ratio_rows prev rs) = ratio_rows prev rs.
Proof.
  intros Hprev Hrs. revert prev Hprev.
  induction Hrs as [|r rs Hr _ IH]; intros prev Hprev; [done|].
  cbn [ratio_rows]. rewrite filter_cons_True.
  - f_equal. by apply IH.
  - unfold row_complete. cbn [snd]. apply Is_true_true.
    by apply zip_log_ratio_complete.
Qed.

Lemma length_ratio_rows prev rs : length (ratio_rows prev rs) = length rs.
Proof. revert prev. induction rs as [|r rs IH]; intros; cbn; [done|]. by rewrite IH. Qed.

Lemma map_fst_ratio_rows prev rs : map fst (ratio_rows prev rs) = map fst rs.
Proof. revert prev. induction rs as [|r rs IH]; intros; cbn; [done|]. by rewrite IH. Qed.

Lemma ratio_rows_lookup prev rs (t : nat) r0 r1 :
  rs !! t = Some r0 -> rs !! S t = Some r1 ->
  ratio_rows prev rs !! S t
  = Some (fst r1, zip_with (fun a b => np_log (fdiv a b)) (snd r1) (snd r0)).
Proof.
  revert prev t. induction rs as [|r rs IH]; intros prev t H0 H1; [done|].
  destruct t as [|t].
  - cbn in H0. injection H0 as ->. destruct rs as [|r' rs]; [done|].
    cbn in H1. injection H1 as ->. done.
  - cbn in H0, H1. cbn [ratio_rows]. rewrite lookup_cons_ne_0 by lia.
    cbn. by apply IH.
Qed.

Lemma zip_log_ratio_lookup cells prev (c : nat) p q :
  cells !! c = Some (Fin p) -> prev !! c = Some (Fin q) -> 0 < p -> 0 < q ->
  zip_with (fun a b => np_log (fdiv a b)) cells prev !! c = Some (Fin (ln (p / q))).
Proof.
  intros Hc Hp Hpos Hqos. rewrite lookup_zip_with, Hc. cbn. rewrite Hp. cbn.
  by rewrite log_ratio_pos.
Qed.

End LogReturns.

(** C1. On a price table with at least one column, at least two rows and
    strictly positive prices, [log_returns] returns a table with the same
    columns and one row fewer, indexed by the input's labels from the
    second on, whose value in row [t] and column [c] is
    [ln (P[t+1][c] / P[t][c])]. *)
Theorem log_returns_positive (df : DataFrame) :
  rectangular df -> columns df <> [] ->
  (2 <= length (rows df))%nat -> positive_prices df ->
  exists out,
    log_returns df = Returned out /\
    columns out = columns df /\
    length (rows out) = (length (rows df) - 1)%nat /\
    index out = tail (index df) /\
    forall t c : nat,
      (S t < length (rows df))%nat -> (c < length (columns df))%nat ->
      exists p q : R,
        cell df (S t) c = Some (Fin p) /\ cell df t c = Some (Fin q) /\
        cell out t c = Some (Fin (ln (p / q)%R)).
Proof.
  intros Hrect Hcols Hlen Hpos. rewrite log_returns_rows.
  destruct df as [cols rs]. cbn [columns rows] in *.
  destruct rs as [|r0 rs]; [cbn in Hlen; lia|].
  unfold rectangular, positive_prices in *. cbn [columns rows] in *.
  apply Forall_cons in Hrect as [Hr0 Hrect].
  pose proof Hpos as Hpos'. apply Forall_cons in Hpos' as [Hp0 Hprs].
  assert (Hn : (0 < length cols)%nat) by (destruct cols; [done | cbn; lia]).
  cbn [ratio_rows]. rewrite filter_cons_False.
  2:{ destruct r0 as [t0 c0]. cbn [fst snd] in *.
      rewrite first_row_incomplete by assumption. by intros []. }
  rewrite ratio_rows_complete by assumption.
  eexists. split; [reflexivity|]. cbn [columns rows].
  split; [done|]. split; [rewrite length_ratio_rows; cbn; lia|].
  split; [unfold index; cbn [rows map tail]; apply map_fst_ratio_rows|].
  intros t c Ht Hc. cbn [length] in Ht.
  destruct (lookup_lt_is_Some_2 (r0 :: rs) t) as [ra Hra]; [cbn; lia|].
  destruct (lookup_lt_is_Some_2 (r0 :: rs) (S t)) as [rb Hrb]; [cbn; lia|].
  assert (Hall : Forall (fun row : Timestamp * list float64 =>
                           length (snd row) = length cols) (r0 :: rs))
    by (by apply Forall_cons).
  pose proof (Forall_lookup_1 _ _ _ _ Hall Hra) as Hla.
  pose proof (Forall_lookup_1 _ _ _ _ Hall Hrb) as Hlb.
  cbn beta in Hla, Hlb.
  destruct (lookup_lt_is_Some_2 (snd ra) c) as [xa Hxa]; [lia|].
  destruct (lookup_lt_is_Some_2 (snd rb) c) as [xb Hxb]; [lia|].
  pose proof (Forall_lookup_1 _ _ _ _ (Forall_lookup_1 _ _ _ _ Hpos Hra) Hxa) as Hpa.
  pose proof (Forall_lookup_1 _ _ _ _ (Forall_lookup_1 _ _ _ _ Hpos Hrb) Hxb) as Hpb.
  destruct Hpa as (q & -> & Hq). destruct Hpb as (p & -> & Hp).
  exists p, q. unfold cell. cbn [rows].
  rewrite Hra, Hrb. cbn. split; [done|]. split; [done|].
  pose proof (ratio_rows_lookup (replicate (length cols) NaN) (r0 :: rs) t ra rb Hra Hrb) as Hl.
  cbn [ratio_rows] in Hl. rewrite lookup_cons_ne_0 in Hl by lia. cbn in Hl.
  rewrite Hl. cbn. by apply zip_log_ratio_lookup.
Qed.

(** The first hypotheses of C1 at the seven-day sample. *)
Lemma week_prices_rectangular : rectangular Samples.week_prices.
Proof. repeat constructor. Qed.

Lemma week_prices_positive : positive_prices Samples.week_prices.
Proof.
  repeat (constructor; [repeat constructor; eexists; split; [reflexivity|lra]|]).
  constructor.
Qed.

Lemma log_returns_positive_witness :
  exists out,
    log_returns Samples.week_prices = Returned out /\
    columns out = ["Bitcoin"] /\
    length (rows out) = 6%nat /\
    index out = tail (index Samples.week_prices) /\
    forall t c : nat,
      (S t < 7)%nat -> (c < 1)%nat ->
      exists p q : R,
        cell Samples.week_prices (S t) c = Some (Fin p) /\
        cell Samples.week_prices t c = Some (Fin q) /\
        cell out t c = Some (Fin (ln (p / q)%R)).
Proof.
  apply (log_returns_positive Samples.week_prices).
  - exact week_prices_rectangular.
  - discriminate.
  - cbn. lia.
  - exact week_prices_positive.
Defined.

(** ** log_returns on tables the specification rejects *)

Section LogReturnsTotal.
Local Open Scope R_scope.

Lemma np_log_zero : np_log (Fin 0) = NInf.
Proof.
  unfold np_log. destruct (Rlt_dec 0 0); [lra|].
  destruct (Req_dec_T 0 0); [done | contradiction].
Qed.

Lemma fdiv_by_zero_pos (a : R) : 0 < a -> fdiv (Fin a) (Fin 0) = PInf.
Proof.
  intros Ha. unfold fdiv. destruct (Req_dec_T 0 0); [|contradiction].
  unfold signed_inf. destruct (Rlt_dec 0 a); [done | contradiction].
Qed.

(** C2, refuted. A table of a single row, and a table with a zero price,
    are both answered with a table: the first with no row at all, the
    second with an infinite return on each side of the zero price. No
    error is raised. *)
Lemma log_returns_returns_on_invalid :
  log_returns Samples.single_row
  = Returned {| columns := ["Bitcoin"]; rows := [] |} /\
  log_returns Samples.zero_price
  = Returned {| columns := ["Bitcoin"];
                rows := [(Timedelta_days 1, [NInf]); (Timedelta_days 2, [PInf])] |}.
Proof.
  split.
  - rewrite log_returns_rows. reflexivity.
  - rewrite log_returns_rows. cbn [Samples.zero_price Samples.btc_frame columns rows].
    cbn [imap ratio_rows fst snd zip_with length replicate compose].
    rewrite fdiv_fin by lra.
    replace (0 / 100) with 0 by lra. rewrite np_log_zero.
    rewrite fdiv_by_zero_pos by lra. reflexivity.
Qed.

(** What a pair of finite prices gives: the return is undefined exactly
    when the prices have opposite signs, the current one is negative over a
    zero one, or both are zero. *)
Lemma Rdiv_sign (a b : R) :
  b <> 0 ->
  (0 < a / b <-> (0 < a /\ 0 < b) \/ (a < 0 /\ b < 0)) /\
  (a / b = 0 <-> a = 0).
Proof.
  intros Hb. unfold Rdiv.
  assert (Hinv : b * / b = 1) by (by apply Rinv_r).
  destruct (Rtotal_order b 0) as [Hneg|[->|Hpos]]; [|done|].
  - pose proof (Rinv_lt_0_compat b Hneg) as Hi. split; split; intros H; nra.
  - pose proof (Rinv_0_lt_compat b Hpos) as Hi. split; split; intros H; nra.
Qed.

Lemma log_ratio_nan (a b : R) :
  np_log (fdiv (Fin a) (Fin b)) = NaN <->
  (a < 0 /\ 0 <= b) \/ (0 < a /\ b < 0) \/ (a = 0 /\ b = 0).
Proof.
  unfold fdiv. destruct (Req_dec_T b 0) as [->|Hb].
  - unfold signed_inf. destruct (Rlt_dec 0 a) as [Ha|Ha]; cbn.
    + split; [done|]. lra.
    + destruct (Rlt_dec a 0) as [Ha'|Ha']; cbn; (split; [intros _|done]); lra.
  - destruct (Rdiv_sign a b Hb) as [Hpos Hzero]. unfold np_log.
    destruct (Rlt_dec 0 (a / b)) as [Hq|Hq].
    + split; [done|]. apply Hpos in Hq. lra.
    + destruct (Req_dec_T (a / b) 0) as [Hz|Hz].
      * split; [done|]. apply Hzero in Hz. lra.
      * split; [intros _|done].
        destruct (Rtotal_order a 0) as [Ha|[Ha|Ha]].
        -- left. split; [done|]. destruct (Rlt_dec b 0) as [Hb'|Hb']; [|lra].
           exfalso. apply Hq, Hpos. by right.
        -- exfalso. by apply Hz, Hzero.
        -- right. left. split; [lra|]. destruct (Rlt_dec b 0) as [|Hb']; [done|].
           exfalso. apply Hq, Hpos. left. lra.
Qed.

Lemma log_ratio_negative (a b : R) :
  a < 0 -> b < 0 -> np_log (fdiv (Fin a) (Fin b)) = Fin (ln (a / b)).
Proof.
  intros Ha Hb. rewrite fdiv_fin by lra. apply np_log_pos.
  apply (Rdiv_sign a b); [lra|]. by right.
Qed.

(** C2, as the code has it. [log_returns] validates nothing and never
    raises. On every table with at least one column it returns a table with
    the same columns whose rows are the rows after the first, each holding
    the logarithms of the ratios to the row before, less those in which a
    logarithm is NaN: these are dropped, not reported. An input of fewer
    than two rows gives a table without rows. Between finite prices the
    logarithm is NaN exactly when the two have opposite signs, a negative
    price follows a zero one, or both are zero; a zero price after a
    non-zero one gives minus infinity, a positive price after a zero one
    plus infinity, and two negative prices a finite return: all three are
    kept. *)
Theorem log_returns_total (df : DataFrame) :
  rectangular df -> columns df <> [] ->
  exists out,
    log_returns df = Returned out /\
    columns out = columns df /\
    rows out = match rows df with
               | [] => []
               | r0 :: rs => filter row_complete (ratio_rows (snd r0) rs)
               end /\
    ((length (rows df) < 2)%nat -> rows out = []) /\
    (length (rows out) <= length (rows df) - 1)%nat /\
    Forall (fun r => Forall (fun x => x <> NaN) (snd r)) (rows out) /\
    (forall a b : R,
       np_log (fdiv (Fin a) (Fin b)) = NaN <->
       (a < 0 /\ 0 <= b) \/ (0 < a /\ b < 0) \/ (a = 0 /\ b = 0)) /\
    (forall b : R, b <> 0 -> np_log (fdiv (Fin 0) (Fin b)) = NInf) /\
    (forall a : R, 0 < a -> np_log (fdiv (Fin a) (Fin 0)) = PInf) /\
    (forall a b : R, a < 0 -> b < 0 ->
       np_log (fdiv (Fin a) (Fin b)) = Fin (ln (a / b))).
Proof.
  intros Hrect Hcols. rewrite log_returns_rows. eexists. split; [reflexivity|].
  cbn [columns rows]. split; [done|].
  assert (Hrows :
    filter row_complete (ratio_rows (replicate (length (columns df)) NaN) (rows df))
    = match rows df with
      | [] => []
      | r0 :: rs => filter row_complete (ratio_rows (snd r0) rs)
      end).
  { destruct df as [cols [|[t0 c0] rs]]; cbn [columns rows] in *; [done|].
    apply Forall_cons in Hrect as [Hr0 _]. cbn [snd] in Hr0.
    cbn [ratio_rows fst snd]. rewrite filter_cons_False; [done|].
    rewrite first_row_incomplete; [by intros []|done|].
    destruct cols; [done | cbn; lia]. }
  split; [exact Hrows|]. split; [|split; [|split; [|split; [|split; [|split]]]]].
  - rewrite Hrows. destruct (rows df) as [|r0 [|r1 rs]]; cbn; [done|done|lia].
  - rewrite Hrows. destruct (rows df) as [|r0 rs]; cbn [length]; [cbn; lia|].
    etrans; [apply length_filter|]. rewrite length_ratio_rows. lia.
  - apply Forall_forall. intros r Hr. apply list_elem_of_filter in Hr as [Hc _].
    unfold row_complete in Hc. apply Is_true_true in Hc.
    rewrite forallb_forall in Hc. apply Forall_forall. intros x Hx ->.
    apply list_elem_of_In in Hx. by specialize (Hc _ Hx).
  - exact log_ratio_nan.
  - intros b Hb. rewrite fdiv_fin by done.
    replace (0 / b) with 0 by (field; done). exact np_log_zero.
  - intros a Ha. by rewrite fdiv_by_zero_pos.
  - exact log_ratio_negative.
Qed.

Lemma log_returns_total_witness :
  exists out,
    log_returns Samples.zero_price = Returned out /\
    columns out = ["Bitcoin"] /\
    rows out = filter row_complete
                 (ratio_rows [Fin 100] [(Timedelta_days 1, [Fin 0]);
                                        (Timedelta_days 2, [Fin 50])]) /\
    ((3 < 2)%nat -> rows out = []) /\
    (length (rows out) <= 2)%nat /\
    Forall (fun r => Forall (fun x => x <> NaN) (snd r)) (rows out) /\
    (forall a b : R,
       np_log (fdiv (Fin a) (Fin b)) = NaN <->
       (a < 0 /\ 0 <= b) \/ (0 < a /\ b < 0) \/ (a = 0 /\ b = 0)) /\
    (forall b : R, b <> 0 -> np_log (fdiv (Fin 0) (Fin b)) = NInf) /\
    (forall a : R, 0 < a -> np_log (fdiv (Fin a) (Fin 0)) = PInf) /\
    (forall a b : R, a < 0 -> b < 0 ->
       np_log (fdiv (Fin a) (Fin b)) = Fin (ln (a / b))).
Proof.
  apply (log_returns_total Samples.zero_price).
  - repeat constructor.
  - discriminate.
Defined.

End LogReturnsTotal.

(** ** adf_test *)

Section AdfTestFacts.

(** C3, refuted. On a series of 100 identical values [adf_test] has no
    answer of its own. Where statsmodels refuses the series, what comes out
    is the library's [ValueError], not a NonComputableSeries condition; and
    whatever the library does, [adf_test] cannot raise such a condition
    unless [adfuller] raised it. *)
Lemma adf_test_constant_series :
  adf_test Samples.adfuller_refusing Samples.constant_series "x"
  = Raised (ValueError "Invalid input, x is constant") /\
  exn_class (ValueError "Invalid input, x is constant") <> "NonComputableSeries" /\
  ~ (exists (adfuller : list float64 -> string -> outcome adfuller_result) (e : exn),
       adfuller (snd <$> entries (series_dropna Samples.constant_series)) "AIC"
       <> Raised e /\
       adf_test adfuller Samples.constant_series "x" = Raised e /\
       exn_class e = "NonComputableSeries").
Proof.
  split; [reflexivity|]. split; [discriminate|].
  intros (adfuller & e & Hne & Hraise & Hclass). unfold adf_test in Hraise.
  destruct (adfuller _ _) as [result|e0]; cbn in Hraise.
  - unfold dict_get in Hraise.
    destruct (critvalues result !! "1%"); cbn in Hraise;
      [|injection Hraise as <-; discriminate Hclass].
    destruct (critvalues result !! "5%"); cbn in Hraise;
      [|injection Hraise as <-; discriminate Hclass].
    destruct (critvalues result !! "10%"); cbn in Hraise;
      [discriminate Hraise|injection Hraise as <-; discriminate Hclass].
  - injection Hraise as ->. by apply Hne.
Qed.

(** C3, as the code has it. [adf_test] makes no check of its own on the
    series, constant or not. An exception of [adfuller] is passed on
    unchanged. When [adfuller] returns its statistics with the critical
    values at 1%, 5% and 10%, [adf_test] returns the report: the label (or
    the name of the series), the statistic, the p-value and the critical
    values rounded to four decimals, and the verdict, Stationary for a
    p-value below 0.05 and Non-Stationary otherwise, a NaN p-value
    included. A result lacking a critical value raises the [KeyError] of the
    first one missing. *)
Theorem adf_test_follows_adfuller
    (adfuller : list float64 -> string -> outcome adfuller_result)
    (series : Series) (label : string) :
  match adfuller (snd <$> entries (series_dropna series)) "AIC" with
  | Raised e => adf_test adfuller series label = Raised e
  | Returned result =>
      match critvalues result !! "1%", critvalues result !! "5%",
            critvalues result !! "10%" with
      | Some c1, Some c5, Some c10 =>
          adf_test adfuller series label
          = Returned {| report_Series := if decide (label = "") then name series else label;
                        report_ADF_Statistic := py_round (adfstat result) 4;
                        report_p_value := py_round (pvalue result) 4;
                        report_1pct := py_round c1 4;
                        report_5pct := py_round c5 4;
                        report_10pct := py_round c10 4;
                        report_Result :=
                          if flt (pvalue result) (Fin 0.05)
                          then "Stationary" else "Non-Stationary" |} /\
          (pvalue result = NaN ->
           report_Result <$> adf_test adfuller series label
           = Returned "Non-Stationary")
      | None, _, _ => adf_test adfuller series label = Raised (KeyError "1%")
      | Some _, None, _ => adf_test adfuller series label = Raised (KeyError "5%")
      | Some _, Some _, None => adf_test adfuller series label = Raised (KeyError "10%")
      end
  end.
Proof.
  unfold adf_test.
  destruct (adfuller _ _) as [result|e]; cbn; [|done].
  unfold dict_get.
  destruct (critvalues result !! "1%"); cbn; [|done].
  destruct (critvalues result !! "5%"); cbn; [|done].
  destruct (critvalues result !! "10%"); cbn; [|done].
  split; [done|]. by intros ->.
Qed.

End AdfTestFacts.

(** ** Rounding and minimum *)

Section RoundMin.
Local Open Scope R_scope.

Lemma Rfloor_spec (r : R) : IZR (Rfloor r) <= r < IZR (Rfloor r) + 1.
Proof.
  unfold Rfloor. rewrite minus_IZR. destruct (archimed r). lra.
Qed.

Lemma Rfloor_unique (r : R) (n : Z) : IZR n <= r < IZR n + 1 -> Rfloor r = n.
Proof.
  intros [H1 H2]. destruct (Rfloor_spec r) as [H3 H4].
  assert (Hlt1 : (Rfloor r < n + 1)%Z) by (apply lt_IZR; rewrite plus_IZR; lra).
  assert (Hlt2 : (n < Rfloor r + 1)%Z) by (apply lt_IZR; rewrite plus_IZR; lra).
  lia.
Qed.

(** Rounding to [ndigits] decimals gives a multiple of [10^-ndigits] at
    distance at most half a unit of the last decimal. *)
Lemma py_round_fin (m : R) (ndigits : nat) :
  exists k : Z,
    py_round (Fin m) ndigits = Fin (IZR k / 10 ^ ndigits) /\
    - (1 / 2) <= IZR k - m * 10 ^ ndigits <= 1 / 2.
Proof.
  unfold py_round. cbv zeta.
  destruct (Rfloor_spec (m * 10 ^ ndigits)) as [H1 H2].
  set (n := Rfloor (m * 10 ^ ndigits)) in *.
  destruct (Rlt_dec _ _) as [Hd|Hd].
  - exists n. split; [done|]. lra.
  - destruct (Rlt_dec _ _) as [Hu|Hu].
    + exists (n + 1)%Z. split; [done|]. rewrite plus_IZR. lra.
    + destruct (Z.even n).
      * exists n. split; [done|]. lra.
      * exists (n + 1)%Z. split; [done|]. rewrite plus_IZR. lra.
Qed.

(** A probability rounded to four decimals is a probability, at most
    0.00005 away. *)
Lemma py_round_unit (m : R) :
  0 <= m <= 1 ->
  exists r : R,
    py_round (Fin m) 4 = Fin r /\ 0 <= r <= 1 /\
    - (1 / 20000) <= r - m <= 1 / 20000.
Proof.
  intros [H0 H1]. destruct (py_round_fin m 4) as (k & -> & Hk).
  replace (10 ^ 4) with 10000 in * by (simpl; lra).
  exists (IZR k / 10000). split; [done|].
  assert (Hk0 : (0 <= k)%Z).
  { assert (-1 < k)%Z by (apply lt_IZR; lra). lia. }
  assert (Hk1 : (k <= 10000)%Z).
  { assert (k < 10001)%Z by (apply lt_IZR; lra). lia. }
  apply IZR_le in Hk0, Hk1. lra.
Qed.

Lemma py_round_small : py_round (Fin 0.00004) 4 = Fin 0.
Proof.
  unfold py_round. cbv zeta.
  replace (10 ^ 4) with 10000 by (simpl; lra).
  rewrite (Rfloor_unique _ 0) by lra.
  destruct (Rlt_dec _ _) as [_|Hd]; [|lra]. f_equal. lra.
Qed.

(** The running minimum of finite values. *)
Lemma fold_min_fin (a : R) (xs : list R) :
  exists m : R,
    fold_left (fun m y => if flt y m then y else m) (Fin <$> xs) (Fin a) = Fin m /\
    m ∈ a :: xs /\ Forall (Rle m) (a :: xs).
Proof.
  revert a. induction xs as [|x xs IH]; intros a.
  - exists a. cbn. split; [done|]. split; [apply list_elem_of_here|]. constructor; [lra|done].
  - cbn [fmap list_fmap fold_left]. unfold flt at 2.
    destruct (Rlt_dec x a) as [Hlt|Hge].
    + destruct (IH x) as (m & -> & Hin & Hall). exists m. split; [done|].
      split; [by apply list_elem_of_further|].
      apply Forall_cons in Hall as [Hmx Hall].
      constructor; [lra|]. by constructor.
    + destruct (IH a) as (m & -> & Hin & Hall). exists m. split; [done|].
      split; [apply elem_of_cons in Hin as [->|Hin];
              [apply list_elem_of_here | by do 2 apply list_elem_of_further]|].
      apply Forall_cons in Hall as [Hma Hall].
      constructor; [done|]. constructor; [lra|done].
Qed.

Lemma py_min_fin (a : R) (xs : list R) :
  exists m : R,
    py_min (Fin <$> (a :: xs)) = Returned (Fin m) /\
    m ∈ a :: xs /\ Forall (Rle m) (a :: xs).
Proof.
  destruct (fold_min_fin a xs) as (m & Hm & Hin & Hall).
  exists m. split; [|done]. cbn. by rewrite Hm.
Qed.

End RoundMin.

Lemma traverse_returned {X Y : Type} (f : X -> outcome Y) (g : X -> Y) (xs : list X) :
  Forall (fun x => f x = Returned (g x)) xs -> traverse f xs = Returned (g <$> xs).
Proof.
  induction 1 as [|x xs Hx _ IH]; [done|]. cbn. rewrite Hx. cbn. by rewrite IH.
Qed.

(** ** The stable sort *)

Section StableSort.
Context {A : Type} (le : A -> A -> bool).

Lemma insert_sorted_perm (x : A) (l : list A) : insert_sorted le x l ≡ₚ x :: l.
Proof.
  induction l as [|y l IH]; [done|]. cbn. destruct (le x y); [done|].
  rewrite IH. apply Permutation_swap.
Qed.

Lemma stable_sort_perm (l : list A) : stable_sort le l ≡ₚ l.
Proof.
  induction l as [|x l IH]; [done|].
  cbn. rewrite insert_sorted_perm. by rewrite IH.
Qed.

(** Members of a class on which [le] holds keep their order. *)
Lemma insert_sorted_filter (P : A -> Prop) `{!forall x, Decision (P x)} (x : A) (l : list A) :
  (forall a b, P a -> P b -> le a b = true) ->
  filter P (insert_sorted le x l) = filter P (x :: l).
Proof.
  intros Hclass. induction l as [|y l IH]; [done|].
  cbn [insert_sorted]. destruct (le x y) eqn:Hxy; [done|].
  rewrite filter_cons, IH, !filter_cons.
  destruct (decide (P y)) as [Hy|Hy]; [|done].
  destruct (decide (P x)) as [Hx|Hx]; [|done].
  rewrite (Hclass x y Hx Hy) in Hxy. discriminate.
Qed.

Lemma stable_sort_filter (P : A -> Prop) `{!forall x, Decision (P x)} (l : list A) :
  (forall a b, P a -> P b -> le a b = true) ->
  filter P (stable_sort le l) = filter P l.
Proof.
  intros Hclass. induction l as [|x l IH]; [done|].
  cbn [stable_sort foldr]. rewrite insert_sorted_filter by done.
  rewrite !filter_cons. fold (stable_sort le l). by rewrite IH.
Qed.

Hypothesis le_total : forall x y, le x y = false -> le y x = true.
Hypothesis le_trans : forall x y z, le x y = true -> le y z = true -> le x z = true.

Lemma insert_sorted_sorted (x : A) (l : list A) :
  StronglySorted (fun a b => le a b = true) l ->
  StronglySorted (fun a b => le a b = true) (insert_sorted le x l).
Proof.
  induction 1 as [|y l Hs IH Hy]; [repeat constructor|].
  cbn [insert_sorted]. destruct (le x y) eqn:Hxy.
  - constructor; [by constructor|]. constructor; [done|].
    eapply Forall_impl; [exact Hy|]. cbn. intros z Hz. by eapply le_trans.
  - constructor; [exact IH|].
    rewrite insert_sorted_perm. constructor; [by apply le_total | done].
Qed.

Lemma stable_sort_sorted (l : list A) :
  StronglySorted (fun a b => le a b = true) (stable_sort le l).
Proof.
  induction l as [|x l IH]; [constructor|]. by apply insert_sorted_sorted.
Qed.

End StableSort.

Lemma StronglySorted_lookup {A : Type} (R : A -> A -> Prop) (l : list A) (i j : nat) (a b : A) :
  StronglySorted R l -> (i < j)%nat -> l !! i = Some a -> l !! j = Some b -> R a b.
Proof.
  intros Hs. revert i j. induction Hs as [|x l Hs IH Hx]; intros i j Hij Hi Hj; [done|].
  destruct j as [|j]; [lia|]. cbn in Hj. destruct i as [|i].
  - cbn in Hi. injection Hi as ->.
    eapply (proj1 (Forall_forall _ _) Hx). by eapply list_elem_of_lookup_2.
  - cbn in Hi. eapply (IH i j); [lia|done..].
Qed.

(** ** Loops that may raise *)

Lemma foldM_app {S X : Type} (body : S -> X -> outcome S) (st : S) (xs ys : list X) :
  foldM body st (xs ++ ys) = st' ← foldM body st xs; foldM body st' ys.
Proof.
  revert st. induction xs as [|x xs IH]; intros st; [done|].
  cbn [app foldM]. destruct (body st x) as [st1|e]; cbn; [apply IH | done].
Qed.

Section FoldM.
Context {S X Y : Type}.

(** Two nested loops visit the pairs of the product in order. *)
Lemma foldM_nested (body : S -> X -> Y -> outcome S) (st : S)
    (xs : list X) (ys : list Y) :
  foldM (fun st x => foldM (fun st y => body st x y) st ys) st xs
  = foldM (fun st k => body st (fst k) (snd k)) st (list_prod xs ys).
Proof.
  revert st. induction xs as [|x xs IH]; intros st; [done|].
  cbn [foldM list_prod]. rewrite foldM_app.
  assert (Hin : forall st0,
    foldM (fun st y => body st x y) st0 ys
    = foldM (fun st k => body st (fst k) (snd k)) st0 (map (fun y => (x, y)) ys)).
  { clear. induction ys as [|y ys IH]; intros st0; [done|].
    cbn. destruct (body st0 x y); cbn; [apply IH | done]. }
  rewrite Hin. destruct (foldM _ st (map _ ys)); cbn; [apply IH | done].
Qed.

End FoldM.

Lemma elem_of_list_prod_2 {X Y : Type} (xs : list X) (ys : list Y) (k : X * Y) :
  k ∈ list_prod xs ys <-> fst k ∈ xs /\ snd k ∈ ys.
Proof.
  destruct k as [x y]. rewrite !list_elem_of_In. apply in_prod_iff.
Qed.

(** ** The matrices of granger_matrix *)

Section GrangerMatrix.
Local Open Scope R_scope.

Variable tests : DataFrame -> nat -> outcome (gmap nat lag_tests).
Variables (returns : DataFrame) (max_lag : nat) (significance : float64).

Local Abbreviation cols := (columns returns).

Local Abbreviation pair_test := (GrangerCausality.pair_test tests returns max_lag).
Local Abbreviation written := (GrangerCausality.written tests returns max_lag significance).
Local Abbreviation printed := (GrangerCausality.printed tests returns max_lag).
Local Abbreviation pair_step := (GrangerCausality.pair_step tests returns max_lag significance).

Lemma full_lookup {A : Type} (l : list string) (v : A) (c e : string) :
  c ∈ l -> e ∈ l -> full l v !! (c, e) = Some v.
Proof.
  intros Hc He. unfold full.
  destruct (list_to_map _ !! (c, e)) as [x|] eqn:Hl.
  - apply elem_of_list_to_map_2 in Hl.
    apply list_elem_of_fmap in Hl as (k & Heq & _). by simplify_eq.
  - apply not_elem_of_list_to_map_2 in Hl. exfalso. apply Hl.
    rewrite <- list_fmap_compose.
    apply list_elem_of_fmap. exists (c, e). split; [done|].
    by apply elem_of_list_prod_2.
Qed.

Lemma col_pos_elem_of (n : string) (l : list string) :
  n ∈ l -> is_Some (col_pos n l).
Proof.
  intros Hn. unfold col_pos.
  destruct (list_find_elem_of (fun c => c = n) l n Hn eq_refl) as [[i x] ->].
  by eexists.
Qed.

Lemma getitem_cols_pair (c e : string) :
  c ∈ cols -> e ∈ cols ->
  exists data, getitem_cols returns [e; c] = Returned data.
Proof.
  intros Hc He. unfold getitem_cols. cbn [traverse].
  destruct (col_pos_elem_of e cols He) as [i ->].
  destruct (col_pos_elem_of c cols Hc) as [j ->].
  cbn. by eexists.
Qed.

Lemma pair_step_spec (st : state) (k : string * string) :
  fst k ∈ cols -> snd k ∈ cols ->
  exists st',
    pair_step st k = Returned st' /\
    p_matrix st' = match written k with
                   | Some w => <[k := fst w]> (p_matrix st)
                   | None => p_matrix st
                   end /\
    matrix st' = match written k with
                 | Some (_, true) => <[k := true]> (matrix st)
                 | _ => matrix st
                 end /\
    stdout st' = stdout st ++ option_list (printed k).
Proof.
  destruct k as [c e]. cbn [fst snd]. intros Hc He.
  unfold pair_step, pair_body, written, printed, pair_test. cbn [fst snd].
  destruct (decide (c = e)) as [->|Hne].
  - eexists. split; [done|]. cbn. by rewrite app_nil_r.
  - destruct (getitem_cols_pair c e Hc He) as [data ->]. cbn.
    destruct (min_p_value tests (dropna data) max_lag) as [m|err].
    + eexists. split; [done|]. cbn. rewrite app_nil_r.
      destruct (flt m significance); done.
    + eexists. split; [done|]. done.
Qed.

(** The state after the loop has visited the pairs [ks]. *)
Lemma pair_loop_spec (ks : list (string * string)) (st : state) :
  Forall (fun k => fst k ∈ cols /\ snd k ∈ cols) ks ->
  exists st',
    foldM pair_step st ks = Returned st' /\
    (forall k, p_matrix st' !! k
               = match written k with
                 | Some w => if decide (k ∈ ks) then Some (fst w) else p_matrix st !! k
                 | None => p_matrix st !! k
                 end) /\
    (forall k, matrix st' !! k
               = match written k with
                 | Some (_, true) => if decide (k ∈ ks) then Some true else matrix st !! k
                 | _ => matrix st !! k
                 end) /\
    stdout st' = stdout st ++ omap printed ks.
Proof.
  intros Hks. revert st. induction Hks as [|k0 ks [Hc He] _ IH]; intros st.
  - exists st. split; [done|]. split; [|split].
    + intros k. destruct (written k);
        first [done | by rewrite decide_False by set_solver].
    + intros k. destruct (written k) as [[? []]|];
        first [done | by rewrite decide_False by set_solver].
    + cbn. by rewrite app_nil_r.
  - destruct (pair_step_spec st k0 Hc He) as (st1 & Hstep & Hp1 & Hm1 & Ho1).
    destruct (IH st1) as (st' & Hfold & Hp & Hm & Ho).
    exists st'. cbn [foldM]. rewrite Hstep. cbn. split; [exact Hfold|].
    split; [|split].
    + intros k. rewrite Hp, Hp1.
      destruct (written k) as [w|] eqn:Hw.
      * destruct (decide (k ∈ ks)) as [Hin|Hnin].
        { by rewrite decide_True by set_solver. }
        destruct (decide (k = k0)) as [->|Hne].
        { rewrite decide_True by set_solver. rewrite Hw.
          by rewrite lookup_insert_eq. }
        rewrite decide_False by (by intros [?|?]%elem_of_cons).
        destruct (written k0); [by rewrite lookup_insert_ne|done].
      * destruct (written k0) as [w0|] eqn:Hw0; [|done].
        rewrite lookup_insert_ne; [done|]. intros ->. congruence.
    + intros k. rewrite Hm, Hm1.
      destruct (written k) as [[p []]|] eqn:Hw.
      * destruct (decide (k ∈ ks)) as [Hin|Hnin].
        { by rewrite decide_True by set_solver. }
        destruct (decide (k = k0)) as [->|Hne].
        { rewrite decide_True by set_solver. rewrite Hw.
          by rewrite lookup_insert_eq. }
        rewrite decide_False by (by intros [?|?]%elem_of_cons).
        destruct (written k0) as [[? []]|]; [by rewrite lookup_insert_ne|done..].
      * destruct (written k0) as [[? []]|] eqn:Hw0; [|done..].
        rewrite lookup_insert_ne; [done|]. intros ->. congruence.
      * destruct (written k0) as [[? []]|] eqn:Hw0; [|done..].
        rewrite lookup_insert_ne; [done|]. intros ->. congruence.
    + rewrite Ho, Ho1. cbn [omap list_omap]. rewrite <- app_assoc.
      f_equal. by destruct (printed k0).
Qed.

(** [granger_matrix] always returns; every cell of a pair of columns holds
    what the loop wrote for it, or its initial value. *)
Lemma granger_matrix_spec :
  exists st,
    granger_matrix tests returns max_lag significance = Returned st /\
    (forall c e, c ∈ cols -> e ∈ cols ->
       p_matrix st !! (c, e) = Some (from_option fst NaN (written (c, e))) /\
       matrix st !! (c, e) = Some (from_option snd false (written (c, e)))) /\
    stdout st = omap printed (list_prod cols cols).
Proof.
  unfold granger_matrix. rewrite foldM_nested.
  destruct (pair_loop_spec (list_prod cols cols)
              {| matrix := full cols false; p_matrix := full cols NaN; stdout := [] |})
    as (st & Hfold & Hp & Hm & Ho).
  { apply Forall_forall. intros k Hk. by apply elem_of_list_prod_2. }
  exists st. split; [exact Hfold|]. split; [|exact Ho].
  intros c e Hc He.
  assert (Hin : (c, e) ∈ list_prod cols cols) by (by apply elem_of_list_prod_2).
  rewrite Hp, Hm. cbn [p_matrix matrix].
  rewrite !full_lookup by assumption.
  destruct (written (c, e)) as [[p []]|]; cbn; by rewrite ?decide_True by assumption.
Qed.

End GrangerMatrix.

(** ** granger_matrix: the cells *)

Section GrangerCells.
Local Open Scope R_scope.

Variable tests : DataFrame -> nat -> outcome (gmap nat lag_tests).
Variables (returns : DataFrame) (max_lag : nat) (significance : float64).

Lemma written_diagonal (c : string) :
  written tests returns max_lag significance (c, c) = None.
Proof. unfold written. cbn. by rewrite decide_True. Qed.

Lemma written_returned (c e : string) (data : DataFrame) (m : float64) :
  c <> e ->
  getitem_cols returns [e; c] = Returned data ->
  min_p_value tests (dropna data) max_lag = Returned m ->
  written tests returns max_lag significance (c, e)
  = Some (py_round m 4, flt m significance).
Proof.
  intros Hne Hd Hm. unfold written, pair_test. cbn [fst snd].
  rewrite decide_False by done. rewrite Hd. cbn. by rewrite Hm.
Qed.

Lemma written_raised (c e : string) (data : DataFrame) (err : exn) :
  c <> e ->
  getitem_cols returns [e; c] = Returned data ->
  min_p_value tests (dropna data) max_lag = Raised err ->
  written tests returns max_lag significance (c, e) = None /\
  printed tests returns max_lag (c, e) = Some (failure_line c e err).
Proof.
  intros Hne Hd Hm. unfold written, printed, pair_test. cbn [fst snd].
  rewrite !decide_False by done. rewrite Hd. cbn. by rewrite Hm.
Qed.

(** The smallest p-value over the lags, when every lag reports a finite
    one. *)
Lemma min_p_value_fin (data : DataFrame) (result : gmap nat lag_tests) (pv : nat -> R) :
  (1 <= max_lag)%nat ->
  tests data max_lag = Returned result ->
  (forall lag, (1 <= lag <= max_lag)%nat ->
     exists t, result !! lag = Some t /\ ssr_ftest_pvalue t = Fin (pv lag)) ->
  exists lag0,
    (1 <= lag0 <= max_lag)%nat /\
    (forall lag, (1 <= lag <= max_lag)%nat -> pv lag0 <= pv lag) /\
    min_p_value tests data max_lag = Returned (Fin (pv lag0)).
Proof.
  intros Hlag Hres Hpv. unfold min_p_value. rewrite Hres. cbn.
  rewrite (traverse_returned _ (fun lag => Fin (pv lag))).
  2:{ apply Forall_forall. intros lag Hin. apply elem_of_seq in Hin.
      destruct (Hpv lag) as (t & Ht & Hp); [lia|].
      unfold dict_get. rewrite Ht. cbn. by rewrite Hp. }
  cbn. destruct max_lag as [|n]; [lia|].
  assert (Heq : (fun lag => Fin (pv lag)) <$> seq 1 (S n)
                = Fin <$> (pv 1%nat :: (pv <$> seq 2 n)))
    by (by rewrite <- fmap_cons, <- list_fmap_compose).
  rewrite Heq.
  destruct (py_min_fin (pv 1%nat) (pv <$> seq 2 n)) as (m & Hmin & Hin & Hall).
  change (pv 1%nat :: (pv <$> seq 2 n)) with (pv <$> seq 1 (S n)) in Hin, Hall.
  apply list_elem_of_fmap in Hin as (lag0 & -> & Hin0).
  apply elem_of_seq in Hin0.
  exists lag0. split; [lia|]. split.
  - intros lag Hl. rewrite Forall_fmap in Hall.
    eapply (proj1 (Forall_forall _ _) Hall). apply elem_of_seq. lia.
  - exact Hmin.
Qed.

End GrangerCells.

(** C4, as the code has it. For a table with distinct column labels and
    [max_lag >= 1], [granger_matrix] returns; on the diagonal the p-value
    cell is undefined (NaN) and the boolean cell is False; for an ordered
    pair of distinct columns whose test reports a p-value in [0,1] at every
    lag, the p-value cell is the smallest of them over the lags
    [1..max_lag] rounded to four decimals (again in [0,1], at most 0.00005
    from the minimum), and the boolean cell tells whether the unrounded
    minimum is below the significance level. *)
Theorem granger_matrix_cells
    (tests : DataFrame -> nat -> outcome (gmap nat lag_tests))
    (returns : DataFrame) (max_lag : nat) (significance : float64) :
  NoDup (columns returns) -> (1 <= max_lag)%nat ->
  exists st,
    granger_matrix tests returns max_lag significance = Returned st /\
    (forall c, c ∈ columns returns ->
       p_matrix st !! (c, c) = Some NaN /\ matrix st !! (c, c) = Some false) /\
    (forall cause effect data result (pv : nat -> R),
       cause ∈ columns returns -> effect ∈ columns returns -> cause <> effect ->
       getitem_cols returns [effect; cause] = Returned data ->
       tests (dropna data) max_lag = Returned result ->
       (forall lag, (1 <= lag <= max_lag)%nat ->
          exists t, result !! lag = Some t /\
                    ssr_ftest_pvalue t = Fin (pv lag) /\ (0 <= pv lag <= 1)%R) ->
       exists (lag0 : nat) (r : R),
         (1 <= lag0 <= max_lag)%nat /\
         (forall lag, (1 <= lag <= max_lag)%nat -> (pv lag0 <= pv lag)%R) /\
         py_round (Fin (pv lag0)) 4 = Fin r /\
         (0 <= r <= 1)%R /\ (- (1 / 20000) <= r - pv lag0 <= 1 / 20000)%R /\
         p_matrix st !! (cause, effect) = Some (Fin r) /\
         matrix st !! (cause, effect) = Some (flt (Fin (pv lag0)) significance)).
Proof.
  intros _ Hlag.
  destruct (granger_matrix_spec tests returns max_lag significance)
    as (st & Hret & Hcells & _).
  exists st. split; [exact Hret|]. split.
  - intros c Hc. destruct (Hcells c c Hc Hc) as [Hp Hm].
    rewrite written_diagonal in Hp, Hm. done.
  - intros cause effect data result pv Hc He Hne Hdata Hres Hpv.
    destruct (min_p_value_fin tests max_lag (dropna data) result pv Hlag Hres)
      as (lag0 & Hl0 & Hmin & Hmp).
    { intros lag Hl. destruct (Hpv lag Hl) as (t & ? & ? & _). by exists t. }
    destruct (Hpv lag0 Hl0) as (_ & _ & _ & Hunit).
    destruct (py_round_unit (pv lag0) Hunit) as (r & Hr & Hr01 & Hclose).
    exists lag0, r. do 5 (split; [done|]).
    destruct (Hcells cause effect Hc He) as [Hp Hm].
    rewrite (written_returned tests returns max_lag significance
               cause effect data (Fin (pv lag0)) Hne Hdata Hmp) in Hp, Hm.
    cbn in Hp, Hm. by rewrite Hr in Hp.
Qed.

(** C5, as the code has it. For a table with distinct column labels
    [granger_matrix] returns whatever the tests do; when the test of an
    ordered pair raises, the p-value cell of the pair stays undefined (NaN),
    its boolean cell stays False, the line naming the pair is printed, and
    every pair whose test returns still has its cells computed. *)
Theorem granger_matrix_failed_pair
    (tests : DataFrame -> nat -> outcome (gmap nat lag_tests))
    (returns : DataFrame) (max_lag : nat) (significance : float64) :
  NoDup (columns returns) ->
  exists st,
    granger_matrix tests returns max_lag significance = Returned st /\
    forall cause effect data err,
      cause ∈ columns returns -> effect ∈ columns returns -> cause <> effect ->
      getitem_cols returns [effect; cause] = Returned data ->
      min_p_value tests (dropna data) max_lag = Raised err ->
      p_matrix st !! (cause, effect) = Some NaN /\
      matrix st !! (cause, effect) = Some false /\
      failure_line cause effect err ∈ stdout st /\
      forall cause' effect' data' min_p,
        cause' ∈ columns returns -> effect' ∈ columns returns -> cause' <> effect' ->
        getitem_cols returns [effect'; cause'] = Returned data' ->
        min_p_value tests (dropna data') max_lag = Returned min_p ->
        p_matrix st !! (cause', effect') = Some (py_round min_p 4) /\
        matrix st !! (cause', effect') = Some (flt min_p significance).
Proof.
  intros _.
  destruct (granger_matrix_spec tests returns max_lag significance)
    as (st & Hret & Hcells & Hout).
  exists st. split; [exact Hret|].
  intros cause effect data err Hc He Hne Hdata Herr.
  destruct (written_raised tests returns max_lag significance
              cause effect data err Hne Hdata Herr) as [Hw Hp].
  destruct (Hcells cause effect Hc He) as [Hpm Hm]. rewrite Hw in Hpm, Hm.
  split; [done|]. split; [done|]. split.
  - rewrite Hout. apply list_elem_of_omap. exists (cause, effect).
    split; [by apply elem_of_list_prod_2 | exact Hp].
  - intros c' e' data' min_p Hc' He' Hne' Hdata' Hmin.
    destruct (Hcells c' e' Hc' He') as [Hpm' Hm'].
    by rewrite (written_returned tests returns max_lag significance
                  c' e' data' min_p Hne' Hdata' Hmin) in Hpm', Hm'.
Qed.

(** *** The two-series sample *)

Section GrangerSamples.
Local Open Scope R_scope.

Lemma two_series_NoDup : NoDup (columns Samples.two_series).
Proof. apply NoDup_cons. split; [|apply NoDup_singleton]. by intros ?%list_elem_of_singleton. Qed.

Lemma two_series_effect_bitcoin :
  getitem_cols Samples.two_series ["Bitcoin"; "Gold"]
  = Returned {| columns := ["Bitcoin"; "Gold"]; rows := rows Samples.two_series |}.
Proof. reflexivity. Qed.

Lemma tests_with_p_lookup (p : float64) (maxlag lag : nat) :
  (1 <= lag <= maxlag)%nat ->
  (list_to_map ((fun lag => (lag, {| ssr_ftest := (Fin 20, p, Fin 10, Fin (INR lag)) |}))
                  <$> seq 1 maxlag) : gmap nat lag_tests) !! lag
  = Some {| ssr_ftest := (Fin 20, p, Fin 10, Fin (INR lag)) |}.
Proof.
  intros Hl. apply elem_of_list_to_map_1.
  - rewrite <- list_fmap_compose. cbn. rewrite list_fmap_id. apply NoDup_seq.
  - apply list_elem_of_fmap. exists lag. split; [done|]. apply elem_of_seq. lia.
Qed.

Lemma min_p_value_with_p (p : R) (data : DataFrame) (maxlag : nat) :
  (1 <= maxlag)%nat ->
  min_p_value (Samples.tests_with_p (Fin p)) data maxlag = Returned (Fin p).
Proof.
  intros Hl.
  destruct (min_p_value_fin (Samples.tests_with_p (Fin p)) maxlag data _
              (fun _ => p) Hl eq_refl) as (lag0 & _ & _ & Hm); [|exact Hm].
  intros lag Hlag. eexists. split; [by apply tests_with_p_lookup|done].
Qed.

(** C4, refuted. With a test whose p-value is 0.00004 at both lags, the
    p-value cell of (Gold, Bitcoin) holds 0, not the minimum 0.00004, while
    the boolean cell is set from the unrounded value; and the boolean cell
    of the diagonal is defined: it is False. *)
Lemma granger_matrix_rounds_p_value :
  exists st data,
    granger_matrix (Samples.tests_with_p (Fin 0.00004)) Samples.two_series 2 (Fin 0.05)
    = Returned st /\
    getitem_cols Samples.two_series ["Bitcoin"; "Gold"] = Returned data /\
    min_p_value (Samples.tests_with_p (Fin 0.00004)) (dropna data) 2
    = Returned (Fin 0.00004) /\
    p_matrix st !! ("Gold", "Bitcoin") = Some (Fin 0) /\
    Fin 0 <> Fin 0.00004 /\
    matrix st !! ("Gold", "Bitcoin") = Some true /\
    matrix st !! ("Bitcoin", "Bitcoin") = Some false.
Proof.
  destruct (granger_matrix_spec (Samples.tests_with_p (Fin 0.00004))
              Samples.two_series 2 (Fin 0.05)) as (st & Hret & Hcells & _).
  exists st. eexists. split; [exact Hret|].
  split; [exact two_series_effect_bitcoin|].
  assert (Hmin := min_p_value_with_p 0.00004
            (dropna {| columns := ["Bitcoin"; "Gold"]; rows := rows Samples.two_series |})
            2 ltac:(lia)).
  split; [exact Hmin|].
  assert (HG : "Gold" ∈ columns Samples.two_series)
    by (apply list_elem_of_further, list_elem_of_here).
  assert (HB : "Bitcoin" ∈ columns Samples.two_series) by apply list_elem_of_here.
  destruct (Hcells "Gold" "Bitcoin" HG HB) as [Hp Hm].
  destruct (Hcells "Bitcoin" "Bitcoin" HB HB) as [_ Hd].
  rewrite (written_returned _ _ _ _ "Gold" "Bitcoin" _ _ ltac:(done)
             two_series_effect_bitcoin Hmin) in Hp, Hm.
  rewrite written_diagonal in Hd. cbn in Hp, Hm, Hd.
  rewrite py_round_small in Hp.
  split; [exact Hp|]. split; [intros [= H]; lra|]. split; [|exact Hd].
  rewrite Hm. f_equal. unfold flt. destruct (Rlt_dec _ _); [done | lra].
Qed.

Lemma granger_matrix_cells_witness :
  exists st,
    granger_matrix (Samples.tests_with_p (Fin 0.00004)) Samples.two_series 2 (Fin 0.05)
    = Returned st /\
    (forall c, c ∈ columns Samples.two_series ->
       p_matrix st !! (c, c) = Some NaN /\ matrix st !! (c, c) = Some false) /\
    (forall cause effect data result (pv : nat -> R),
       cause ∈ columns Samples.two_series -> effect ∈ columns Samples.two_series ->
       cause <> effect ->
       getitem_cols Samples.two_series [effect; cause] = Returned data ->
       Samples.tests_with_p (Fin 0.00004) (dropna data) 2 = Returned result ->
       (forall lag, (1 <= lag <= 2)%nat ->
          exists t, result !! lag = Some t /\
                    ssr_ftest_pvalue t = Fin (pv lag) /\ (0 <= pv lag <= 1)%R) ->
       exists (lag0 : nat) (r : R),
         (1 <= lag0 <= 2)%nat /\
         (forall lag, (1 <= lag <= 2)%nat -> (pv lag0 <= pv lag)%R) /\
         py_round (Fin (pv lag0)) 4 = Fin r /\
         (0 <= r <= 1)%R /\ (- (1 / 20000) <= r - pv lag0 <= 1 / 20000)%R /\
         p_matrix st !! (cause, effect) = Some (Fin r) /\
         matrix st !! (cause, effect) = Some (flt (Fin (pv lag0)) (Fin 0.05))).
Proof.
  apply (granger_matrix_cells (Samples.tests_with_p (Fin 0.00004))
           Samples.two_series 2 (Fin 0.05)).
  - exact two_series_NoDup.
  - lia.
Defined.

(** C5, refuted. When the test of (Gold, Bitcoin) cannot be computed, the
    boolean cell of the pair is not left undefined: it is False. *)
Lemma granger_matrix_failed_pair_is_false :
  exists st data err,
    granger_matrix (Samples.tests_failing_on "Bitcoin") Samples.two_series 2 (Fin 0.05)
    = Returned st /\
    getitem_cols Samples.two_series ["Bitcoin"; "Gold"] = Returned data /\
    min_p_value (Samples.tests_failing_on "Bitcoin") (dropna data) 2 = Raised err /\
    matrix st !! ("Gold", "Bitcoin") = Some false.
Proof.
  destruct (granger_matrix_spec (Samples.tests_failing_on "Bitcoin")
              Samples.two_series 2 (Fin 0.05)) as (st & Hret & Hcells & _).
  exists st. do 2 eexists. split; [exact Hret|].
  split; [exact two_series_effect_bitcoin|].
  assert (Herr : min_p_value (Samples.tests_failing_on "Bitcoin")
            (dropna {| columns := ["Bitcoin"; "Gold"]; rows := rows Samples.two_series |}) 2
          = Raised (ValueError "Insufficient observations")) by reflexivity.
  split; [exact Herr|].
  assert (HG : "Gold" ∈ columns Samples.two_series)
    by (apply list_elem_of_further, list_elem_of_here).
  assert (HB : "Bitcoin" ∈ columns Samples.two_series) by apply list_elem_of_here.
  destruct (Hcells "Gold" "Bitcoin" HG HB) as [_ Hm].
  destruct (written_raised _ _ _ (Fin 0.05) "Gold" "Bitcoin" _ _ ltac:(done)
              two_series_effect_bitcoin Herr) as [Hw _].
  by rewrite Hw in Hm.
Qed.

Lemma granger_matrix_failed_pair_witness :
  exists st,
    granger_matrix (Samples.tests_failing_on "Bitcoin") Samples.two_series 2 (Fin 0.05)
    = Returned st /\
    forall cause effect data err,
      cause ∈ columns Samples.two_series -> effect ∈ columns Samples.two_series ->
      cause <> effect ->
      getitem_cols Samples.two_series [effect; cause] = Returned data ->
      min_p_value (Samples.tests_failing_on "Bitcoin") (dropna data) 2 = Raised err ->
      p_matrix st !! (cause, effect) = Some NaN /\
      matrix st !! (cause, effect) = Some false /\
      failure_line cause effect err ∈ stdout st /\
      forall cause' effect' data' min_p,
        cause' ∈ columns Samples.two_series -> effect' ∈ columns Samples.two_series ->
        cause' <> effect' ->
        getitem_cols Samples.two_series [effect'; cause'] = Returned data' ->
        min_p_value (Samples.tests_failing_on "Bitcoin") (dropna data') 2 = Returned min_p ->
        p_matrix st !! (cause', effect') = Some (py_round min_p 4) /\
        matrix st !! (cause', effect') = Some (flt min_p (Fin 0.05)).
Proof.
  apply (granger_matrix_failed_pair (Samples.tests_failing_on "Bitcoin")
           Samples.two_series 2 (Fin 0.05)).
  exact two_series_NoDup.
Defined.

End GrangerSamples.

(** ** The order of the summary *)

Section RowOrder.
Local Open Scope R_scope.

Ltac float_cases :=
  unfold p_le, flt; intros;
  repeat match goal with
         | x : float64 |- _ => destruct x
         end;
  repeat match goal with
         | |- context [Rlt_dec ?a ?b] => destruct (Rlt_dec a b)
         | H : context [Rlt_dec ?a ?b] |- _ => destruct (Rlt_dec a b)
         end;
  cbn in *; try done; try lra.

Lemma p_le_refl (a : float64) : p_le a a = true.
Proof. float_cases. Qed.

Lemma p_le_total (a b : float64) : p_le a b = false -> p_le b a = true.
Proof. float_cases. Qed.

Lemma p_le_trans (a b c : float64) :
  p_le a b = true -> p_le b c = true -> p_le a c = true.
Proof. float_cases. Qed.

Lemma p_le_fin (x y : R) : p_le (Fin x) (Fin y) = true -> x <= y.
Proof. float_cases. Qed.

Lemma p_le_nan (b : float64) : p_le NaN b = true -> b = NaN.
Proof. float_cases. Qed.

Lemma p_le_fle (a b : float64) :
  p_le a b = true -> a <> NaN -> b <> NaN -> fle a b.
Proof. float_cases. Qed.

Lemma string_compare_refl (a : string) : String.compare a a = Eq.
Proof. by apply OrderedTypeEx.String_as_OT.cmp_eq. Qed.

Lemma string_compare_gt_trans (a b c : string) :
  String.compare a b = Gt -> String.compare b c = Gt -> String.compare a c = Gt.
Proof.
  intros Hab Hbc.
  rewrite String.compare_antisym in Hab, Hbc |- *.
  destruct (String.compare b a) eqn:Hba; try discriminate.
  destruct (String.compare c b) eqn:Hcb; try discriminate.
  apply OrderedTypeEx.String_as_OT.cmp_lt in Hba, Hcb.
  pose proof (OrderedTypeEx.String_as_OT.lt_trans _ _ _ Hcb Hba) as Hca.
  apply OrderedTypeEx.String_as_OT.cmp_lt in Hca.
  unfold OrderedTypeEx.String_as_OT.cmp in Hca. by rewrite Hca.
Qed.

Lemma row_le_total (a b : summary_row) : row_le a b = false -> row_le b a = true.
Proof.
  unfold row_le. rewrite (String.compare_antisym (Significant a) (Significant b)).
  destruct (String.compare (Significant b) (Significant a)); cbn; try done.
  apply p_le_total.
Qed.

Lemma row_le_trans (a b c : summary_row) :
  row_le a b = true -> row_le b c = true -> row_le a c = true.
Proof.
  unfold row_le.
  destruct (String.compare (Significant a) (Significant b)) eqn:Hab; try done;
    destruct (String.compare (Significant b) (Significant c)) eqn:Hbc; try done;
    intros H1 H2.
  - apply String.compare_eq_iff in Hab. rewrite Hab, Hbc. by eapply p_le_trans.
  - apply String.compare_eq_iff in Hab. by rewrite Hab, Hbc.
  - apply String.compare_eq_iff in Hbc. by rewrite <- Hbc, Hab.
  - by rewrite (string_compare_gt_trans _ _ _ Hab Hbc).
Qed.

Lemma row_le_same_key (r0 a b : summary_row) :
  same_key r0 a -> same_key r0 b -> row_le a b = true.
Proof.
  intros [Hs1 Hp1] [Hs2 Hp2]. unfold row_le.
  rewrite <- Hs1, <- Hs2, string_compare_refl, <- Hp1, <- Hp2. apply p_le_refl.
Qed.

(** What the order says of two records, the first of which is not after
    the second. *)
Lemma row_le_flags (a b : summary_row) :
  row_le a b = true ->
  Significant a ∈ ["Yes"; "No"] -> Significant b = "Yes" -> Significant a = "Yes".
Proof.
  unfold row_le. intros Hle Ha Hb. rewrite Hb in Hle.
  apply elem_of_cons in Ha as [->|Ha]; [done|].
  apply list_elem_of_singleton in Ha. by rewrite Ha in Hle.
Qed.

Lemma row_le_p_values (a b : summary_row) :
  row_le a b = true -> Significant a = Significant b ->
  p_le (Min_p_value a) (Min_p_value b) = true.
Proof.
  unfold row_le. intros Hle Hs. by rewrite Hs, string_compare_refl in Hle.
Qed.

End RowOrder.

(** ** granger_summary *)

Section GrangerSummary.

Variable tests : DataFrame -> nat -> outcome (gmap nat lag_tests).
Variables (returns : DataFrame) (max_lag : nat) (significance : float64).

Local Abbreviation cols := (columns returns).
Local Abbreviation row_of := (GrangerCausality.row_of significance).

Lemma summary_body_spec (pm : gmap (string * string) float64)
    (k : string * string) (rs : list summary_row) :
  is_Some (pm !! k) ->
  summary_body significance pm rs (fst k) (snd k)
  = Returned (rs ++ option_list (row_of pm k)).
Proof.
  intros [p Hp]. unfold summary_body, row_of.
  destruct (decide (k.1 = k.2)) as [Heq|Hne]; cbn; [by rewrite app_nil_r|].
  unfold dict_get. destruct k as [c e]. cbn [fst snd] in *. by rewrite Hp.
Qed.

Lemma summary_loop_spec (pm : gmap (string * string) float64)
    (ks : list (string * string)) (rs : list summary_row) :
  Forall (fun k => is_Some (pm !! k)) ks ->
  foldM (fun rs k => summary_body significance pm rs (fst k) (snd k)) rs ks
  = Returned (rs ++ omap (row_of pm) ks).
Proof.
  intros Hks. revert rs. induction Hks as [|k ks Hk _ IH]; intros rs.
  - cbn. by rewrite app_nil_r.
  - cbn [foldM omap list_omap]. rewrite summary_body_spec by done. cbn.
    rewrite IH, <- app_assoc. f_equal. by destruct (row_of pm k).
Qed.

Lemma summary_rows_spec (st : state) :
  granger_matrix tests returns max_lag significance = Returned st ->
  summary_rows returns significance (p_matrix st)
  = Returned (omap (row_of (p_matrix st)) (list_prod cols cols)).
Proof.
  intros Hret.
  destruct (granger_matrix_spec tests returns max_lag significance)
    as (st' & Hret' & Hcells & _).
  rewrite Hret in Hret'. injection Hret' as <-.
  unfold summary_rows. rewrite foldM_nested.
  rewrite summary_loop_spec; [done|].
  apply Forall_forall. intros [c e] Hk. apply elem_of_list_prod_2 in Hk as [Hc He].
  destruct (Hcells c e Hc He) as [-> _]. by eexists.
Qed.

Lemma row_of_flag (pm : gmap (string * string) float64) (k : string * string)
    (r : summary_row) :
  row_of pm k = Some r -> Significant r ∈ ["Yes"; "No"].
Proof.
  unfold row_of. destruct (decide _); [done|].
  destruct (pm !! k) as [p|]; [|done]. cbn. intros [= <-]. cbn.
  destruct (flt p significance);
    [apply list_elem_of_here | apply list_elem_of_further, list_elem_of_here].
Qed.

End GrangerSummary.

(** C6. Whenever [granger_summary] returns, its records are those collected
    by the loop, rearranged so that no record flagged "No" precedes one
    flagged "Yes", p-values do not decrease within a flag (undefined ones
    last), and records with the same flag and the same p-value keep the
    order in which the loop collected them. It returns as soon as the
    table has two different column labels; otherwise no record is
    collected and sorting the empty frame raises. *)
Theorem granger_summary_sorted
    (tests : DataFrame -> nat -> outcome (gmap nat lag_tests))
    (returns : DataFrame) (max_lag : nat) (significance : float64) :
  match granger_summary tests returns max_lag significance with
  | Returned out =>
      exists st rs,
        granger_matrix tests returns max_lag significance = Returned st /\
        summary_rows returns significance (p_matrix st) = Returned rs /\
        out ≡ₚ rs /\
        (forall (i j : nat) a b,
           (i < j)%nat -> out !! i = Some a -> out !! j = Some b ->
           (Significant b = "Yes" -> Significant a = "Yes") /\
           (Significant a = Significant b ->
              (Min_p_value a = NaN -> Min_p_value b = NaN) /\
              (Min_p_value a <> NaN -> Min_p_value b <> NaN ->
                 fle (Min_p_value a) (Min_p_value b)))) /\
        (forall r0, filter (same_key r0) out = filter (same_key r0) rs)
  | Raised err =>
      err = KeyError "Significant" /\
      forall c e, c ∈ columns returns -> e ∈ columns returns -> c = e
  end.
Proof.
  unfold granger_summary.
  destruct (granger_matrix_spec tests returns max_lag significance)
    as (st & Hret & Hcells & _).
  rewrite Hret. cbn. rewrite (summary_rows_spec tests returns max_lag significance st Hret).
  cbn. remember (omap (row_of significance (p_matrix st))
                     (list_prod (columns returns) (columns returns))) as rs eqn:Hrs.
  assert (Hflags : forall r, r ∈ rs -> Significant r ∈ ["Yes"; "No"]).
  { intros r Hr. rewrite Hrs in Hr. apply list_elem_of_omap in Hr as (k & _ & Hk).
    by eapply row_of_flag. }
  destruct rs as [|r1 rs'].
  - cbn. split; [done|]. intros c e Hc He.
    destruct (decide (c = e)) as [|Hne]; [done|]. exfalso.
    destruct (Hcells c e Hc He) as [Hp _].
    apply (not_elem_of_nil
             {| Cause := c; Effect := e;
                Min_p_value := from_option fst NaN
                                 (written tests returns max_lag significance (c, e));
                Significant := if flt (from_option fst NaN
                                 (written tests returns max_lag significance (c, e)))
                                      significance
                               then "Yes" else "No" |}).
    rewrite Hrs. apply list_elem_of_omap. exists (c, e).
    split; [by apply elem_of_list_prod_2|].
    unfold row_of. cbn [fst snd]. rewrite decide_False by done.
    by rewrite Hp.
  - cbn. exists st, (r1 :: rs'). split; [done|].
    split; [by rewrite (summary_rows_spec tests returns max_lag significance st Hret), Hrs|].
    split; [exact (stable_sort_perm row_le (r1 :: rs'))|]. split.
    + intros i j a b Hij Ha Hb.
      pose proof (StronglySorted_lookup _ (stable_sort row_le (r1 :: rs')) i j a b
                    (stable_sort_sorted row_le row_le_total row_le_trans (r1 :: rs'))
                    Hij Ha Hb) as Hle.
      cbn beta in Hle.
      assert (Hfa : Significant a ∈ ["Yes"; "No"]).
      { apply Hflags. rewrite <- (stable_sort_perm row_le (r1 :: rs')).
        by eapply list_elem_of_lookup_2. }
      split; [by apply row_le_flags|].
      intros Hs. pose proof (row_le_p_values a b Hle Hs) as Hp. split.
      * intros Hn. rewrite Hn in Hp. by apply p_le_nan.
      * by apply p_le_fle.
    + intros r0. apply (stable_sort_filter row_le (same_key r0) (r1 :: rs')).
      apply row_le_same_key.
Qed.

(** ** Forecast tables *)

Section ForecastFrame.
Local Open Scope R_scope.

Lemma lookup_map {X Y : Type} (f : X -> Y) (l : list X) (i : nat) :
  map f l !! i = f <$> l !! i.
Proof. exact (list_lookup_fmap f l i). Qed.

Lemma np_exp_mono (a b : float64) : fle a b -> fle (np_exp a) (np_exp b).
Proof.
  destruct a as [| | |x], b as [| | |y]; cbn; try done.
  - intros _. apply Rlt_le, exp_pos.
  - intros [Hlt| ->]; [apply Rlt_le, exp_increasing, Hlt | apply Rle_refl].
Qed.

Lemma date_range_lookup (start : Timestamp) (periods i : nat) (d : Timestamp) :
  date_range start periods !! i = Some d ->
  d = (start + Timedelta_days (Z.of_nat i))%Z.
Proof.
  unfold date_range. rewrite lookup_map.
  intros H. apply fmap_Some in H as (j & Hj & ->).
  apply lookup_seq in Hj as [-> _]. done.
Qed.

Lemma length_date_range (start : Timestamp) (periods : nat) :
  length (date_range start periods) = periods.
Proof. unfold date_range. by rewrite length_map, length_seq. Qed.

Lemma forecast_frame_spec (fc lo up : list float64) (idx : list Timestamp) :
  length fc = length idx -> length lo = length idx -> length up = length idx ->
  exists out,
    forecast_frame fc lo up idx = Returned out /\
    length out = length idx /\
    forall (i : nat) row, out !! i = Some row ->
      idx !! i = Some (Date row) /\ fc !! i = Some (Forecast row) /\
      lo !! i = Some (Lower_CI row) /\ up !! i = Some (Upper_CI row).
Proof.
  intros H1 H2 H3. unfold forecast_frame. rewrite decide_True by done.
  eexists. split; [reflexivity|]. split.
  - rewrite length_zip_with, !length_zip. lia.
  - intros i row Hrow.
    apply lookup_zip_with_Some in Hrow as (d & [[f l] u] & -> & Hd & Hv).
    apply lookup_zip_with_Some in Hv as (fl & u' & [= <- <-] & Hfl & Hu).
    apply lookup_zip_with_Some in Hfl as (f' & l' & [= <- <-] & Hf & Hl).
    done.
Qed.

End ForecastFrame.

(** ** forecast_arima *)

(** C7. When the fitted model's forecast has [steps] means and [steps]
    intervals, each interval enclosing its mean, [forecast_arima] returns
    exactly [steps] rows; row [i] (from 0) is dated [i + 1] days after the
    last date of the fitted data, so each row is one day after the row
    before; its forecast is the exponential of the model's mean at step
    [i], its bounds are the exponentials of the bounds of the model's
    interval, and lower bound, forecast and upper bound are in this
    order. *)
Theorem forecast_arima_rows (fitted_model : ARIMAResults) (last_price : float64)
    (steps : nat) (alpha : float64) (forecast_obj : PredictionResults)
    (last_date : Timestamp) :
  (1 <= steps)%nat ->
  get_forecast fitted_model steps = Returned forecast_obj ->
  length (predicted_mean forecast_obj) = steps ->
  length (conf_int forecast_obj alpha) = steps ->
  (forall (i : nat) m b,
     predicted_mean forecast_obj !! i = Some m ->
     conf_int forecast_obj alpha !! i = Some b ->
     fle (fst b) m /\ fle m (snd b)) ->
  last (model_data_dates fitted_model) = Some last_date ->
  exists out,
    forecast_arima fitted_model last_price steps alpha = Returned out /\
    length out = steps /\
    (forall (i : nat) row, out !! i = Some row ->
      Date row = (last_date + Timedelta_days (Z.of_nat i + 1))%Z /\
      (exists m b,
         predicted_mean forecast_obj !! i = Some m /\
         conf_int forecast_obj alpha !! i = Some b /\
         Forecast row = np_exp m /\
         Lower_CI row = np_exp (fst b) /\
         Upper_CI row = np_exp (snd b)) /\
      fle (Lower_CI row) (Forecast row) /\ fle (Forecast row) (Upper_CI row)) /\
    (forall (i : nat) row row', out !! i = Some row -> out !! S i = Some row' ->
      Date row' = (Date row + Timedelta_days 1)%Z /\ (Date row < Date row')%Z).
Proof.
  intros _ Hfc Hlm Hlc Hband Hlast. unfold forecast_arima.
  rewrite Hfc. cbn. unfold list_last. rewrite Hlast. cbn.
  destruct (forecast_frame_spec
              (map np_exp (predicted_mean forecast_obj))
              (map (fun b => np_exp (fst b)) (conf_int forecast_obj alpha))
              (map (fun b => np_exp (snd b)) (conf_int forecast_obj alpha))
              (date_range (last_date + Timedelta_days 1)%Z steps))
    as (out & Hout & Hlen & Hrows);
    [by rewrite length_map, length_date_range..|].
  exists out. split; [exact Hout|]. split; [by rewrite Hlen, length_date_range|].
  assert (Hdate : forall (i : nat) row, out !! i = Some row ->
            Date row = (last_date + Timedelta_days (Z.of_nat i + 1))%Z).
  { intros i row Hrow. destruct (Hrows i row Hrow) as (Hd & _).
    apply date_range_lookup in Hd. rewrite Hd. unfold Timedelta_days. lia. }
  split.
  - intros i row Hrow. destruct (Hrows i row Hrow) as (_ & Hf & Hl & Hu).
    rewrite lookup_map in Hf. rewrite lookup_map in Hl. rewrite lookup_map in Hu.
    apply fmap_Some in Hf as (m & Hm & Hf).
    apply fmap_Some in Hl as (b & Hb & Hl).
    apply fmap_Some in Hu as (b' & Hb' & Hu).
    rewrite Hb in Hb'. injection Hb' as <-.
    destruct (Hband i m b Hm Hb) as [Hlo Hup].
    split; [by apply Hdate|].
    split; [by exists m, b|].
    rewrite Hf, Hl, Hu. split; by apply np_exp_mono.
  - intros i row row' Hrow Hrow'.
    rewrite (Hdate _ _ Hrow), (Hdate _ _ Hrow'). unfold Timedelta_days. lia.
Qed.

Lemma forecast_arima_rows_witness :
  exists out,
    forecast_arima Samples.walk_model (Fin 60000) 3 (Fin 0.05) = Returned out /\
    length out = 3%nat /\
    (forall (i : nat) row, out !! i = Some row ->
      Date row = (Timedelta_days 6 + Timedelta_days (Z.of_nat i + 1))%Z /\
      (exists m b,
         predicted_mean (Samples.walk_forecast 11 0.1 3) !! i = Some m /\
         conf_int (Samples.walk_forecast 11 0.1 3) (Fin 0.05) !! i = Some b /\
         Forecast row = np_exp m /\
         Lower_CI row = np_exp (fst b) /\
         Upper_CI row = np_exp (snd b)) /\
      fle (Lower_CI row) (Forecast row) /\ fle (Forecast row) (Upper_CI row)) /\
    (forall (i : nat) row row', out !! i = Some row -> out !! S i = Some row' ->
      Date row' = (Date row + Timedelta_days 1)%Z /\ (Date row < Date row')%Z).
Proof.
  apply (forecast_arima_rows Samples.walk_model (Fin 60000) 3 (Fin 0.05)
           (Samples.walk_forecast 11 0.1 3) (Timedelta_days 6)).
  - lia.
  - reflexivity.
  - reflexivity.
  - reflexivity.
  - intros i m b Hm Hb.
    destruct i as [|[|[|i]]]; cbn in Hm, Hb; try discriminate;
      injection Hm as <-; injection Hb as <-; cbn; lra.
  - reflexivity.
Defined.

(** C10. The table [forecast_arima] returns, or the exception it raises,
    is the same for any two values of [last_price]. *)
Theorem forecast_arima_ignores_last_price (fitted_model : ARIMAResults)
    (last_price last_price' : float64) (steps : nat) (alpha : float64) :
  forecast_arima fitted_model last_price steps alpha
  = forecast_arima fitted_model last_price' steps alpha.
Proof. reflexivity. Qed.

(** ** The cumulative standard error *)

Section CumulativeSe.
Local Open Scope R_scope.

Lemma fadd_nonneg (a v : float64) :
  nonneg a -> nonneg v -> nonneg (fadd a v) /\ fle a (fadd a v).
Proof.
  unfold nonneg. destruct a as [| | |x], v as [| | |y]; cbn; try done. lra.
Qed.

Lemma np_sqrt_mono (a b : float64) :
  nonneg a -> fle a b -> fle (np_sqrt a) (np_sqrt b).
Proof.
  unfold nonneg, np_sqrt. destruct a as [| | |x], b as [| | |y]; cbn; try done.
  - intros Hx _. destruct (Rlt_dec x 0); [lra | done].
  - intros Hx Hxy. destruct (Rlt_dec x 0); [lra|]. destruct (Rlt_dec y 0); [lra|].
    by apply sqrt_le_1_alt.
Qed.

Lemma cumsum_from_nondecreasing (acc : float64) (xs : list float64) :
  nonneg acc -> Forall nonneg xs ->
  nondecreasing (acc :: cumsum_from acc xs) /\ Forall nonneg (cumsum_from acc xs).
Proof.
  intros Hacc Hxs. revert acc Hacc.
  induction Hxs as [|x xs Hx _ IH]; intros acc Hacc.
  - split; [|constructor]. intros h a b Ha Hb. cbn in Hb. by destruct h.
  - cbn [cumsum_from]. destruct (fadd_nonneg acc x Hacc Hx) as [Hn Hle].
    destruct (IH (fadd acc x) Hn) as [Hmono Hall].
    split; [|by constructor].
    intros [|h] a b Ha Hb; cbn in Ha, Hb.
    + by injection Ha as <-; injection Hb as <-.
    + by apply (Hmono h).
Qed.

Lemma cumsum_nondecreasing (xs : list float64) :
  Forall nonneg xs -> nondecreasing (cumsum xs) /\ Forall nonneg (cumsum xs).
Proof.
  intros Hxs. destruct Hxs as [|x xs Hx Hxs].
  - split; [|constructor]. intros h a b Ha. done.
  - cbn [cumsum]. destruct (cumsum_from_nondecreasing x xs Hx Hxs) as [Hm Ha].
    split; [done | by constructor].
Qed.

Lemma length_cumsum_from (acc : float64) (xs : list float64) :
  length (cumsum_from acc xs) = length xs.
Proof. revert acc. induction xs as [|x xs IH]; intros acc; cbn; [done|]. by rewrite IH. Qed.

Lemma length_cumsum (xs : list float64) : length (cumsum xs) = length xs.
Proof. destruct xs; cbn; [done|]. by rewrite length_cumsum_from. Qed.

Lemma length_cumulative_se (xs : list float64) :
  length (cumulative_se xs) = length xs.
Proof. unfold cumulative_se. by rewrite length_map, length_cumsum. Qed.

Lemma length_traverse {X Y : Type} (f : X -> outcome Y) (xs : list X) (ys : list Y) :
  traverse f xs = Returned ys -> length ys = length xs.
Proof.
  revert ys. induction xs as [|x xs IH]; intros ys; cbn.
  - by intros [= <-].
  - destruct (f x); cbn; [|done]. destruct (traverse f xs); cbn; [|done].
    intros [= <-]. cbn. by rewrite (IH _ eq_refl).
Qed.

Lemma length_step_variances (fc_cov : list (list (list float64)))
    (btc_idx steps : nat) (step_var : list float64) :
  step_variances fc_cov btc_idx steps = Returned step_var ->
  length step_var = steps.
Proof.
  intros H. apply length_traverse in H. by rewrite length_seq in H.
Qed.

End CumulativeSe.

(** C9. When the own variances of the target read from the forecast
    covariance of a fitted model are non-negative, the cumulative standard
    error has one value per step and each value is at most the next one. *)
Theorem cumulative_se_nondecreasing (fitted_model : VARResults) (steps btc_idx : nat)
    (fc_cov : list (list (list float64))) (step_var : list float64) :
  (1 <= steps)%nat ->
  forecast_cov fitted_model steps = Returned fc_cov ->
  step_variances fc_cov btc_idx steps = Returned step_var ->
  Forall nonneg step_var ->
  forall h : nat, (1 <= h < steps)%nat ->
    exists a b,
      cumulative_se step_var !! (h - 1)%nat = Some a /\
      cumulative_se step_var !! h = Some b /\
      fle a b.
Proof.
  intros _ _ Hvar Hnn h Hh.
  pose proof (length_step_variances _ _ _ _ Hvar) as Hlen.
  destruct (lookup_lt_is_Some_2 (cumsum step_var) (h - 1)) as [a Ha];
    [rewrite length_cumsum; lia|].
  destruct (lookup_lt_is_Some_2 (cumsum step_var) h) as [b Hb];
    [rewrite length_cumsum; lia|].
  exists (np_sqrt a), (np_sqrt b). unfold cumulative_se.
  rewrite !lookup_map, Ha, Hb. split; [done|]. split; [done|].
  destruct (cumsum_nondecreasing step_var Hnn) as [Hmono Hall].
  apply np_sqrt_mono.
  - by eapply (proj1 (Forall_lookup _ _) Hall).
  - apply (Hmono (h - 1)%nat); [done|]. by replace (S (h - 1)) with h by lia.
Qed.

Lemma cumulative_se_nondecreasing_witness :
  exists a b,
    cumulative_se [Fin 0.0004; Fin 0.0004; Fin 0.0004] !! (2 - 1)%nat = Some a /\
    cumulative_se [Fin 0.0004; Fin 0.0004; Fin 0.0004] !! 2%nat = Some b /\
    fle a b.
Proof.
  apply (cumulative_se_nondecreasing Samples.flat_var 3 0
           [[[Fin 0.0004; Fin 0]; [Fin 0; Fin 0.0004]];
            [[Fin 0.0004; Fin 0]; [Fin 0; Fin 0.0004]];
            [[Fin 0.0004; Fin 0]; [Fin 0; Fin 0.0004]]]
           [Fin 0.0004; Fin 0.0004; Fin 0.0004]).
  - lia.
  - reflexivity.
  - reflexivity.
  - repeat constructor; cbn; lra.
  - lia.
Defined.

(** ** forecast_var *)

Section ForecastVar.
Local Open Scope R_scope.

Lemma bind_returned {X Y : Type} (a : X) (f : X -> outcome Y) :
  (Returned a ≫= f) = f a.
Proof. reflexivity. Qed.

Lemma cumsum_from_lookup (acc : float64) (xs : list float64) (h : nat) :
  (h < length xs)%nat ->
  cumsum_from acc xs !! h = Some (fold_left fadd (take (S h) xs) acc).
Proof.
  revert acc h. induction xs as [|x xs IH]; intros acc h Hh; [cbn in Hh; lia|].
  destruct h as [|h]; [by destruct xs|].
  cbn [cumsum_from]. rewrite lookup_cons_ne_0 by lia. cbn [Nat.pred].
  rewrite IH by (cbn in Hh; lia). done.
Qed.

Lemma cumsum_lookup (xs : list float64) (h : nat) :
  (h < length xs)%nat -> cumsum xs !! h = Some (sum_upto xs h).
Proof.
  destruct xs as [|x xs]; intros Hh; [cbn in Hh; lia|].
  destruct h as [|h]; [by destruct xs|].
  cbn [cumsum]. rewrite lookup_cons_ne_0 by lia. cbn [Nat.pred].
  rewrite cumsum_from_lookup by (cbn in Hh; lia). done.
Qed.

Lemma length_skipna_cumsum (vals : list float64) :
  length (skipna_cumsum vals) = length vals.
Proof.
  unfold skipna_cumsum. rewrite length_zip_with, length_cumsum, length_map. lia.
Qed.

Lemma list_index_col_pos (n : string) (l : list string) (i : nat) :
  list_index n l = Returned i -> col_pos n l = Some i.
Proof.
  unfold list_index, col_pos.
  destruct (list_find _ l) as [[j x]|]; [|done]. by intros [= ->].
Qed.

Lemma column_of_array (k : nat) (g : nat -> list float64 -> Timestamp * list float64)
    (a : list (list float64)) :
  (forall i r, snd (g i r) = r) ->
  (snd <$> map (fun r : Timestamp * list float64 => (fst r, nth k (snd r) NaN))
             (imap g a))
  = map (fun r => nth k r NaN) a.
Proof.
  intros Hg. revert g Hg. induction a as [|r l IH]; intros g Hg; [done|].
  cbn. rewrite Hg. f_equal. apply IH. intros i r'. apply Hg.
Qed.

End ForecastVar.

(** C8, for the part the code carries out. Whatever [alpha] is given, each
    row of [forecast_var] is the exponential of a log-price [point], of
    [point - z * se] and of [point + z * se], where [point] is the last
    log-price plus the cumulative forecast return, [se] is the square root
    of the sum of the target's own variances over the steps so far, and [z]
    is the constant 1.959964. *)
Theorem forecast_var_interval (fitted_model : VARResults) (returns prices : DataFrame)
    (steps : nat) (alpha : float64)
    (fc_array : list (list float64)) (fc_cov : list (list (list float64)))
    (btc_idx : nat) (btc_prices : Series) (last_price : float64)
    (step_var : list float64) (last_date : Timestamp) :
  forecast fitted_model (slice_last (k_ar fitted_model) (values returns)) steps
  = Returned fc_array ->
  length fc_array = steps ->
  Forall (fun r => length r = length (columns returns)) fc_array ->
  forecast_cov fitted_model steps = Returned fc_cov ->
  list_index "Bitcoin" (columns returns) = Returned btc_idx ->
  getitem prices "Bitcoin" = Returned btc_prices ->
  iloc_last btc_prices = Returned last_price ->
  step_variances fc_cov btc_idx steps = Returned step_var ->
  last (index returns) = Some last_date ->
  exists out,
    forecast_var fitted_model returns prices steps alpha = Returned out /\
    length out = steps /\
    forall h : nat, (h < steps)%nat ->
      exists cum_return : float64,
        skipna_cumsum (map (fun r => nth btc_idx r NaN) fc_array) !! h
        = Some cum_return /\
        let point := fadd (np_log last_price) cum_return in
        let se := np_sqrt (sum_upto step_var h) in
        out !! h
        = Some {| Date := (last_date + Timedelta_days (Z.of_nat h + 1))%Z;
                  Forecast := np_exp point;
                  Lower_CI := np_exp (fsub point (fmul (Fin 1.959964) se));
                  Upper_CI := np_exp (fadd point (fmul (Fin 1.959964) se)) |}.
Proof.
  intros Hfc Hlen Hshape Hcov Hidx Hprices Hlast Hvar Hdate.
  pose proof (length_step_variances _ _ _ _ Hvar) as Hlv.
  pose proof (list_index_col_pos _ _ _ Hidx) as Hpos.
  unfold forecast_var. rewrite Hfc, bind_returned.
  unfold frame_of_array. rewrite decide_True by done. rewrite bind_returned.
  rewrite Hcov, bind_returned, Hidx, bind_returned, Hprices, bind_returned.
  rewrite Hlast, bind_returned.
  unfold getitem at 1. cbn [columns]. rewrite Hpos, bind_returned.
  rewrite Hvar, bind_returned.
  unfold series_cumsum. cbn [entries rows].
  assert (Hvals :
    (snd <$> map (fun r : Timestamp * list float64 => (fst r, nth btc_idx (snd r) NaN))
               (imap (fun (i : nat) (r : list float64) => (Z.of_nat i, r)) fc_array))
    = map (fun r => nth btc_idx r NaN) fc_array).
  { by apply column_of_array. }
  rewrite Hvals.
  set (cum_returns := skipna_cumsum (map (fun r => nth btc_idx r NaN) fc_array)).
  assert (Hlc : length cum_returns = steps).
  { unfold cum_returns. by rewrite length_skipna_cumsum, length_map. }
  set (log_fc := map (fadd (np_log last_price)) cum_returns).
  set (band := map (fmul z) (cumulative_se step_var)).
  assert (Hlf : length log_fc = steps) by (unfold log_fc; by rewrite length_map).
  assert (Hlb : length band = steps).
  { unfold band. by rewrite length_map, length_cumulative_se. }
  unfold broadcast2. rewrite !decide_True by lia. rewrite !bind_returned.
  unfold list_last. rewrite Hdate, bind_returned.
  destruct (forecast_frame_spec
              (map np_exp log_fc)
              (map np_exp (zip_with fsub log_fc band))
              (map np_exp (zip_with fadd log_fc band))
              (date_range (last_date + Timedelta_days 1)%Z steps))
    as (out & Hout & Hlo & Hrows).
  { by rewrite length_map, length_date_range. }
  { rewrite length_map, length_zip_with, length_date_range. lia. }
  { rewrite length_map, length_zip_with, length_date_range. lia. }
  exists out. split; [exact Hout|]. rewrite length_date_range in Hlo.
  split; [exact Hlo|]. intros h Hh.
  destruct (lookup_lt_is_Some_2 cum_returns h) as [c Hc]; [lia|].
  exists c. split; [exact Hc|]. cbv zeta.
  destruct (lookup_lt_is_Some_2 out h) as [row Hrow]; [lia|].
  destruct (Hrows h row Hrow) as (Hd & Hf & Hl & Hu).
  apply date_range_lookup in Hd.
  assert (Hp : log_fc !! h = Some (fadd (np_log last_price) c)).
  { unfold log_fc. by rewrite lookup_map, Hc. }
  assert (Hb : band !! h = Some (fmul z (np_sqrt (sum_upto step_var h)))).
  { unfold band, cumulative_se. rewrite !lookup_map.
    by rewrite cumsum_lookup by lia. }
  rewrite lookup_map in Hf. rewrite lookup_map in Hl. rewrite lookup_map in Hu.
  rewrite Hp in Hf. rewrite lookup_zip_with, Hp in Hl. rewrite lookup_zip_with, Hp in Hu.
  cbn in Hf, Hl, Hu. rewrite Hb in Hl, Hu. cbn in Hl, Hu.
  injection Hf as Hf. injection Hl as Hl. injection Hu as Hu.
  rewrite Hrow. f_equal. destruct row as [d f l u]. cbn in *.
  unfold z in *. subst d f l u. f_equal. unfold Timedelta_days. lia.
Qed.

(** At the two-series sample, with [alpha = 0.01]: the multiplier is still
    1.959964. *)
Lemma forecast_var_interval_witness :
  exists out,
    forecast_var Samples.flat_var Samples.two_series Samples.two_prices 2 (Fin 0.01)
    = Returned out /\
    length out = 2%nat /\
    forall h : nat, (h < 2)%nat ->
      exists cum_return : float64,
        skipna_cumsum (map (fun r => nth 0 r NaN) (replicate 2 [Fin 0.01; Fin 0.01])) !! h
        = Some cum_return /\
        let point := fadd (np_log (Fin 99)) cum_return in
        let se := np_sqrt (sum_upto [Fin 0.0004; Fin 0.0004] h) in
        out !! h
        = Some {| Date := (Timedelta_days 3 + Timedelta_days (Z.of_nat h + 1))%Z;
                  Forecast := np_exp point;
                  Lower_CI := np_exp (fsub point (fmul (Fin 1.959964) se));
                  Upper_CI := np_exp (fadd point (fmul (Fin 1.959964) se)) |}.
Proof.
  apply (forecast_var_interval Samples.flat_var Samples.two_series Samples.two_prices
           2 (Fin 0.01)
           (replicate 2 [Fin 0.01; Fin 0.01])
           (replicate 2 [[Fin 0.0004; Fin 0]; [Fin 0; Fin 0.0004]])
           0
           {| name := "Bitcoin";
              entries := [(Timedelta_days 0, Fin 100); (Timedelta_days 1, Fin 101);
                          (Timedelta_days 2, Fin 99)] |}
           (Fin 99)
           [Fin 0.0004; Fin 0.0004]
           (Timedelta_days 3)).
  - reflexivity.
  - reflexivity.
  - repeat constructor.
  - reflexivity.
  - reflexivity.
  - reflexivity.
  - reflexivity.
  - reflexivity.
  - reflexivity.
Defined.

(** The result of [forecast_var] does not depend on [alpha] at all. *)
Lemma forecast_var_ignores_alpha (fitted_model : VARResults) (returns prices : DataFrame)
    (steps : nat) (alpha alpha' : float64) :
  forecast_var fitted_model returns prices steps alpha
  = forecast_var fitted_model returns prices steps alpha'.
Proof. reflexivity. Qed.

(** * Further properties *)

(** ** adf_test and run_adf_tests *)

Section RoundGrid.
Local Open Scope R_scope.

(** A value whose rounding to four decimals lies below a threshold with
    four decimals lies below the threshold itself. *)
Lemma py_round_lt_grid (x : float64) (k : Z) :
  flt (py_round x 4) (Fin (IZR k / 10 ^ 4)) = true ->
  flt x (Fin (IZR k / 10 ^ 4)) = true.
Proof.
  destruct x as [| | |m]; try done.
  destruct (py_round_fin m 4) as (j & -> & Hj).
  unfold flt. replace (10 ^ 4) with 10000 in * by (simpl; lra).
  destruct (Rlt_dec (IZR j / 10000) (IZR k / 10000)) as [Hlt|]; [|done].
  intros _. destruct (Rlt_dec m (IZR k / 10000)) as [|Hge]; [done|]. exfalso.
  assert (Hjk : (j < k)%Z) by (apply lt_IZR; lra).
  assert (Hjk' : IZR j + 1 <= IZR k).
  { rewrite <- plus_IZR. apply IZR_le. lia. }
  lra.
Qed.

Lemma level_5pct : Fin 0.05 = Fin (IZR 500 / 10 ^ 4).
Proof. f_equal. simpl. lra. Qed.

End RoundGrid.

Lemma traverse_Forall2 {X Y : Type} (f : X -> outcome Y) (xs : list X) (ys : list Y) :
  traverse f xs = Returned ys -> Forall2 (fun x y => f x = Returned y) xs ys.
Proof.
  revert ys. induction xs as [|x xs IH]; intros ys; cbn.
  - intros [= <-]. constructor.
  - destruct (f x) as [y|] eqn:Hx; cbn; [|done].
    destruct (traverse f xs) as [ys'|]; cbn; [|done].
    intros [= <-]. constructor; [done | by apply IH].
Qed.

Lemma traverse_raised {X Y : Type} (f : X -> outcome Y) (pre post : list X) (x : X)
    (e : exn) :
  Forall (fun x' => exists y, f x' = Returned y) pre ->
  f x = Raised e ->
  traverse f (pre ++ x :: post) = Raised e.
Proof.
  intros Hpre Hx. induction Hpre as [|x' pre [y Hy] _ IH]; cbn.
  - by rewrite Hx.
  - rewrite Hy. cbn. by rewrite IH.
Qed.

Section AdfReports.

Variable adfuller : list float64 -> string -> outcome adfuller_result.

(** What a report of [adf_test] says, in terms of what [adfuller] returned. *)
Lemma adf_test_returned (series : Series) (label : string) (report : adf_report) :
  adf_test adfuller series label = Returned report ->
  exists result,
    adfuller (snd <$> entries (series_dropna series)) "AIC" = Returned result /\
    report_Series report = (if decide (label = "") then name series else label) /\
    report_p_value report = py_round (pvalue result) 4 /\
    report_Result report
    = if flt (pvalue result) (Fin 0.05) then "Stationary" else "Non-Stationary".
Proof.
  unfold adf_test. destruct (adfuller _ _) as [result|]; cbn; [|done].
  unfold dict_get.
  destruct (critvalues result !! "1%"); cbn; [|done].
  destruct (critvalues result !! "5%"); cbn; [|done].
  destruct (critvalues result !! "10%"); cbn; [|done].
  intros [= <-]. exists result. done.
Qed.

Lemma getitem_name (df : DataFrame) (col : string) (s : Series) :
  getitem df col = Returned s -> name s = col.
Proof.
  unfold getitem. destruct (col_pos col (columns df)); [|done]. by intros [= <-].
Qed.

End AdfReports.

(** X3. The p-value [adf_test] reports never contradicts its verdict of
    non-stationarity: when the reported (rounded) p-value is below 0.05,
    the verdict is Stationary. *)
Theorem adf_test_reported_p_value
    (adfuller : list float64 -> string -> outcome adfuller_result)
    (series : Series) (label : string) (report : adf_report) :
  adf_test adfuller series label = Returned report ->
  flt (report_p_value report) (Fin 0.05) = true ->
  report_Result report = "Stationary".
Proof.
  intros Hret Hp.
  destruct (adf_test_returned adfuller series label report Hret)
    as (result & _ & _ & Hpv & ->).
  rewrite Hpv, level_5pct in Hp. apply py_round_lt_grid in Hp.
  rewrite <- level_5pct in Hp. by rewrite Hp.
Qed.

Lemma adf_test_reported_p_value_witness :
  exists report,
    adf_test Samples.adfuller_stationary Samples.constant_series "x" = Returned report /\
    report_Result report = "Stationary".
Proof.
  eexists. split; [reflexivity|].
  apply (adf_test_reported_p_value Samples.adfuller_stationary
           Samples.constant_series "x").
  - reflexivity.
  - cbn [report_p_value pvalue].
    destruct (py_round_fin 0.0001 4) as (j & -> & Hj).
    unfold flt. replace (10 ^ 4)%R with 10000%R in * by (simpl; lra).
    destruct (Rlt_dec _ _) as [|Hn]; [done|]. exfalso. apply Hn. lra.
Defined.

(** X4. When [run_adf_tests] returns, the table had at least one column
    and holds exactly one report per column, in column order and labelled
    with the column name; each report comes from an [adfuller] call that
    returned on that column's values, with the verdict Stationary exactly
    when that p-value is below 0.05. *)
Theorem run_adf_tests_reports
    (adfuller : list float64 -> string -> outcome adfuller_result)
    (df : DataFrame) (reports : list adf_report) :
  NoDup (columns df) ->
  run_adf_tests adfuller df = Returned reports ->
  columns df <> [] /\
  map report_Series reports = columns df /\
  Forall2 (fun col report =>
             exists series result,
               getitem df col = Returned series /\
               adfuller (snd <$> entries (series_dropna series)) "AIC"
               = Returned result /\
               report_Result report
               = if flt (pvalue result) (Fin 0.05)
                 then "Stationary" else "Non-Stationary")
          (columns df) reports.
Proof.
  intros _. unfold run_adf_tests.
  destruct (traverse _ (columns df)) as [rs|] eqn:Htr; cbn; [|done].
  apply traverse_Forall2 in Htr.
  destruct rs as [|r rs]; cbn; [done|]. intros [= <-].
  split; [intros Hnil; rewrite Hnil in Htr; inversion Htr|].
  split.
  - induction Htr as [|col rep cols reps Hcol _ IH]; [done|].
    cbn [map]. f_equal; [|exact IH].
    destruct (getitem df col) as [series|] eqn:Hg; cbn in Hcol; [|done].
    destruct (adf_test_returned adfuller series col rep Hcol) as (_ & _ & -> & _).
    destruct (decide (col = "")) as [->|]; [by apply getitem_name in Hg | done].
  - eapply Forall2_impl; [exact Htr|]. cbn. intros col rep Hcol.
    destruct (getitem df col) as [series|] eqn:Hg; cbn in Hcol; [|done].
    destruct (adf_test_returned adfuller series col rep Hcol)
      as (result & Hres & _ & _ & Hv).
    by exists series, result.
Qed.

Lemma run_adf_tests_reports_witness :
  exists reports,
    run_adf_tests Samples.adfuller_stationary Samples.two_series = Returned reports /\
    columns Samples.two_series <> [] /\
    map report_Series reports = columns Samples.two_series /\
    Forall2 (fun col report =>
               exists series result,
                 getitem Samples.two_series col = Returned series /\
                 Samples.adfuller_stationary (snd <$> entries (series_dropna series)) "AIC"
                 = Returned result /\
                 report_Result report
                 = if flt (pvalue result) (Fin 0.05)
                   then "Stationary" else "Non-Stationary")
            (columns Samples.two_series) reports.
Proof.
  eexists. split; [reflexivity|].
  apply (run_adf_tests_reports Samples.adfuller_stationary Samples.two_series).
  - exact two_series_NoDup.
  - reflexivity.
Defined.

(** X5. [run_adf_tests] stops at the first column whose test raises: when
    the tests of the columns before it return, the exception of that column
    is the outcome, whatever the later columns hold. *)
Theorem run_adf_tests_first_failure
    (adfuller : list float64 -> string -> outcome adfuller_result)
    (df : DataFrame) (before after : list string) (col : string)
    (series : Series) (e : exn) :
  NoDup (columns df) ->
  columns df = before ++ col :: after ->
  Forall (fun c => exists s report,
            getitem df c = Returned s /\ adf_test adfuller s c = Returned report)
         before ->
  getitem df col = Returned series ->
  adf_test adfuller series col = Raised e ->
  run_adf_tests adfuller df = Raised e.
Proof.
  intros _ Hcols Hbefore Hg Hraise. unfold run_adf_tests. rewrite Hcols.
  rewrite (traverse_raised _ before after col e); [done| |].
  - eapply Forall_impl; [exact Hbefore|]. cbn.
    intros c (s & report & Hs & Hr). exists report. by rewrite Hs.
  - by rewrite Hg.
Qed.

Lemma run_adf_tests_first_failure_witness :
  run_adf_tests Samples.adfuller_needing_data Samples.gold_missing
  = Raised (ValueError "sample size is too short to use selected regression component").
Proof.
  apply (run_adf_tests_first_failure Samples.adfuller_needing_data Samples.gold_missing
           ["Bitcoin"] [] "Gold"
           {| name := "Gold";
              entries := [(Timedelta_days 1, NaN); (Timedelta_days 2, NaN);
                          (Timedelta_days 3, NaN)] |}).
  - apply NoDup_cons. split; [|apply NoDup_singleton].
    by intros ?%list_elem_of_singleton.
  - reflexivity.
  - constructor; [|constructor]. do 2 eexists. split; reflexivity.
  - reflexivity.
  - reflexivity.
Defined.

(** ** prepare_var_data *)

Lemma run_adf_tests_verdicts
    (adfuller : list float64 -> string -> outcome adfuller_result)
    (df : DataFrame) (reports : list adf_report) :
  run_adf_tests adfuller df = Returned reports ->
  Forall (fun r => report_Result r = "Stationary"
                   \/ report_Result r = "Non-Stationary") reports.
Proof.
  unfold run_adf_tests.
  destruct (traverse _ (columns df)) as [rs|] eqn:Htr; cbn; [|done].
  apply traverse_Forall2 in Htr.
  destruct rs as [|r rs]; cbn; [done|]. intros [= <-].
  eapply Forall2_Forall_r; [exact Htr|].
  apply Forall_forall. intros col _ rep Hcol.
  destruct (getitem df col) as [series|]; cbn in Hcol; [|done].
  destruct (adf_test_returned adfuller series col rep Hcol) as (result & _ & _ & _ & ->).
  destruct (flt _ _); [by left | by right].
Qed.

(** X6. The stationarity tests of [prepare_var_data] are advisory: whenever
    it returns, the table it returns is the result of [log_returns]
    unchanged; nothing is printed exactly when every series is found
    Stationary, and otherwise the warning is followed by the reports of the
    Non-Stationary series only. *)
Theorem prepare_var_data_advisory
    (adfuller : list float64 -> string -> outcome adfuller_result)
    (prices returns : DataFrame) (printed : list print_item) :
  NoDup (columns prices) ->
  prepare_var_data adfuller prices = Returned (returns, printed) ->
  log_returns prices = Returned returns /\
  exists reports,
    run_adf_tests adfuller returns = Returned reports /\
    (printed = [] <-> Forall (fun r => report_Result r = "Stationary") reports) /\
    (printed = [] \/
     printed
     = [PrintText "WARNING: the following log-return series are still non-stationary:";
        PrintReports (filter (fun r => report_Result r = "Non-Stationary") reports)]).
Proof.
  intros _. unfold prepare_var_data, log_returns. rewrite bind_returned.
  destruct (run_adf_tests adfuller _) as [reports|] eqn:Hrun; cbn; [|done].
  intros [= <- <-]. split; [done|]. exists reports. split; [done|].
  pose proof (run_adf_tests_verdicts adfuller _ reports Hrun) as Hv.
  destruct (filter _ reports) as [|r ns] eqn:Hf.
  - split; [|by left]. split; [|done]. intros _.
    apply Forall_forall. intros r Hr.
    destruct (proj1 (Forall_forall _ _) Hv r Hr) as [|Hn]; [done|]. exfalso.
    assert (Hin : r ∈ filter (fun r => report_Result r = "Non-Stationary") reports)
      by (by apply list_elem_of_filter).
    rewrite Hf in Hin. by apply not_elem_of_nil in Hin.
  - split; [|by right]. split; [done|]. intros Hall. exfalso.
    assert (Hin : r ∈ filter (fun r => report_Result r = "Non-Stationary") reports)
      by (rewrite Hf; apply list_elem_of_here).
    apply list_elem_of_filter in Hin as [Hn Hin].
    rewrite (proj1 (Forall_forall _ _) Hall r Hin) in Hn. discriminate.
Qed.

Lemma prepare_var_data_advisory_witness :
  exists returns printed,
    prepare_var_data Samples.adfuller_unit_root Samples.week_prices
    = Returned (returns, printed) /\
    log_returns Samples.week_prices = Returned returns /\
    exists reports,
      run_adf_tests Samples.adfuller_unit_root returns = Returned reports /\
      (printed = [] <-> Forall (fun r => report_Result r = "Stationary") reports) /\
      (printed = [] \/
       printed
       = [PrintText "WARNING: the following log-return series are still non-stationary:";
          PrintReports (filter (fun r => report_Result r = "Non-Stationary") reports)]).
Proof.
  do 2 eexists. split; [reflexivity|].
  apply (prepare_var_data_advisory Samples.adfuller_unit_root Samples.week_prices).
  - apply NoDup_singleton.
  - reflexivity.
Defined.

(** ** granger_matrix and granger_summary: how the results relate *)

Section GrangerRelations.
Local Open Scope R_scope.

Variable tests : DataFrame -> nat -> outcome (gmap nat lag_tests).
Variables (returns : DataFrame) (max_lag : nat) (significance : float64).

Lemma granger_matrix_cells_written (st : state) (c e : string) :
  granger_matrix tests returns max_lag significance = Returned st ->
  c ∈ columns returns -> e ∈ columns returns ->
  p_matrix st !! (c, e)
  = Some (from_option fst NaN (written tests returns max_lag significance (c, e))) /\
  matrix st !! (c, e)
  = Some (from_option snd false (written tests returns max_lag significance (c, e))).
Proof.
  intros Hret Hc He.
  destruct (granger_matrix_spec tests returns max_lag significance)
    as (st' & Hret' & Hcells & _).
  rewrite Hret in Hret'. injection Hret' as <-. by apply Hcells.
Qed.

Lemma granger_matrix_stdout (st : state) :
  granger_matrix tests returns max_lag significance = Returned st ->
  stdout st = omap (printed tests returns max_lag)
                   (list_prod (columns returns) (columns returns)).
Proof.
  intros Hret.
  destruct (granger_matrix_spec tests returns max_lag significance)
    as (st' & Hret' & _ & Hout).
  rewrite Hret in Hret'. by injection Hret' as <-.
Qed.

(** The records of the summary are those of the loop, rearranged. *)
Lemma granger_summary_perm (st : state) (out : list summary_row) :
  granger_matrix tests returns max_lag significance = Returned st ->
  granger_summary tests returns max_lag significance = Returned out ->
  out ≡ₚ omap (row_of significance (p_matrix st))
              (list_prod (columns returns) (columns returns)).
Proof.
  intros Hret. unfold granger_summary. rewrite Hret, bind_returned.
  rewrite (summary_rows_spec tests returns max_lag significance st Hret), bind_returned.
  destruct (omap _ _) as [|r rs]; cbn [sort_values]; [done|].
  intros [= <-]. exact (stable_sort_perm row_le (r :: rs)).
Qed.

Lemma row_of_Some (pm : gmap (string * string) float64) (k : string * string)
    (row : summary_row) :
  row_of significance pm k = Some row ->
  fst k <> snd k /\ Cause row = fst k /\ Effect row = snd k /\
  pm !! k = Some (Min_p_value row) /\
  Significant row = (if flt (Min_p_value row) significance then "Yes" else "No").
Proof.
  unfold row_of. destruct (decide (k.1 = k.2)); [done|].
  destruct (pm !! k) as [p|]; cbn; [|done]. by intros [= <-].
Qed.

Lemma written_not_nan (k : string * string) (p : float64) :
  written tests returns max_lag significance k = Some (p, true) -> p <> NaN.
Proof.
  unfold written. destruct (decide _); [done|].
  destruct (pair_test _ _ _ _ _) as [m|]; [|done].
  intros [= <- Hlt]. destruct m as [| | |x]; [done..|].
  by destruct (py_round_fin x 4) as (j & -> & _).
Qed.

End GrangerRelations.

(** X7. A cell of the two matrices depends on two columns only: two tables
    that have the columns [cause] and [effect] and agree on them give the
    same p-value cell and the same boolean cell for (cause, effect),
    whatever their other columns are. *)
Theorem granger_matrix_cell_local
    (tests : DataFrame -> nat -> outcome (gmap nat lag_tests))
    (returns returns' : DataFrame) (max_lag : nat) (significance : float64)
    (st st' : state) (cause effect : string) :
  NoDup (columns returns) -> NoDup (columns returns') ->
  granger_matrix tests returns max_lag significance = Returned st ->
  granger_matrix tests returns' max_lag significance = Returned st' ->
  cause ∈ columns returns -> effect ∈ columns returns ->
  cause ∈ columns returns' -> effect ∈ columns returns' ->
  getitem_cols returns [effect; cause] = getitem_cols returns' [effect; cause] ->
  p_matrix st !! (cause, effect) = p_matrix st' !! (cause, effect) /\
  matrix st !! (cause, effect) = matrix st' !! (cause, effect).
Proof.
  intros _ _ Hret Hret' Hc He Hc' He' Hsame.
  destruct (granger_matrix_cells_written tests returns max_lag significance
              st cause effect Hret Hc He) as [-> ->].
  destruct (granger_matrix_cells_written tests returns' max_lag significance
              st' cause effect Hret' Hc' He') as [-> ->].
  assert (Hw : written tests returns max_lag significance (cause, effect)
               = written tests returns' max_lag significance (cause, effect)).
  { unfold written, GrangerCausality.pair_test. cbn [fst snd]. by rewrite Hsame. }
  by rewrite Hw.
Qed.

(** X8. A boolean cell is True only for an ordered pair of different
    columns whose p-value cell is defined (not NaN). *)
Theorem granger_matrix_true_defined
    (tests : DataFrame -> nat -> outcome (gmap nat lag_tests))
    (returns : DataFrame) (max_lag : nat) (significance : float64)
    (st : state) (cause effect : string) :
  NoDup (columns returns) ->
  granger_matrix tests returns max_lag significance = Returned st ->
  cause ∈ columns returns -> effect ∈ columns returns ->
  matrix st !! (cause, effect) = Some true ->
  cause <> effect /\
  exists p, p_matrix st !! (cause, effect) = Some p /\ p <> NaN.
Proof.
  intros _ Hret Hc He Htrue.
  destruct (granger_matrix_cells_written tests returns max_lag significance
              st cause effect Hret Hc He) as [Hp Hm].
  rewrite Hm in Htrue.
  destruct (written tests returns max_lag significance (cause, effect))
    as [[p b]|] eqn:Hw; cbn in Htrue; [|done].
  injection Htrue as ->. split.
  - intros ->. by rewrite written_diagonal in Hw.
  - exists p. split; [by rewrite Hp|]. by eapply written_not_nan.
Qed.

(** X9. With a significance level of four decimals (such as the default
    0.05), a record of the summary flagged "Yes" is a pair whose boolean
    cell in [granger_matrix] is True: rounding the p-value never turns an
    insignificant pair into a significant one. *)
Theorem granger_summary_yes_is_true
    (tests : DataFrame -> nat -> outcome (gmap nat lag_tests))
    (returns : DataFrame) (max_lag : nat) (k : Z)
    (st : state) (out : list summary_row) (row : summary_row) :
  NoDup (columns returns) ->
  granger_matrix tests returns max_lag (Fin (IZR k / 10 ^ 4)) = Returned st ->
  granger_summary tests returns max_lag (Fin (IZR k / 10 ^ 4)) = Returned out ->
  row ∈ out -> Significant row = "Yes" ->
  matrix st !! (Cause row, Effect row) = Some true.
Proof.
  intros _ Hret Hsum Hrow Hyes.
  rewrite (granger_summary_perm tests returns max_lag _ st out Hret Hsum) in Hrow.
  apply list_elem_of_omap in Hrow as ([c e] & Hk & Hrow).
  apply elem_of_list_prod_2 in Hk as [Hc He]. cbn [fst snd] in Hc, He.
  apply row_of_Some in Hrow as (Hne & -> & -> & Hp & Hs). cbn [fst snd] in *.
  destruct (granger_matrix_cells_written tests returns max_lag _
              st c e Hret Hc He) as [Hp' Hm].
  rewrite Hm. rewrite Hp' in Hp. injection Hp as Hp.
  rewrite Hyes in Hs.
  destruct (flt (Min_p_value row) _) eqn:Hflt; [|done].
  destruct (written tests returns max_lag _ (c, e)) as [[p b]|] eqn:Hw;
    cbn in Hp |- *.
  - f_equal. rewrite <- Hp in Hflt. unfold written in Hw.
    destruct (decide _); [done|].
    destruct (GrangerCausality.pair_test _ _ _ _ _) as [m|]; [|done].
    injection Hw as <- <-. exact (py_round_lt_grid m k Hflt).
  - by rewrite <- Hp in Hflt.
Qed.

(** *** The relations at the samples *)

Section GrangerRelationSamples.
Local Open Scope R_scope.

Lemma three_series_NoDup : NoDup (columns Samples.three_series).
Proof.
  repeat (apply NoDup_cons; split;
          [rewrite ?elem_of_cons, ?elem_of_nil; intros H; repeat destruct H as [H|H]; done|]).
  apply NoDup_nil_2.
Qed.

Lemma small_p_written (sig : R) :
  0.00004 < sig ->
  written (Samples.tests_with_p (Fin 0.00004)) Samples.two_series 2 (Fin sig)
          ("Gold", "Bitcoin")
  = Some (Fin 0, true).
Proof.
  intros Hsig.
  rewrite (written_returned _ _ _ _ "Gold" "Bitcoin" _ (Fin 0.00004) ltac:(done)
             two_series_effect_bitcoin (min_p_value_with_p 0.00004 _ 2 ltac:(lia))).
  rewrite py_round_small. do 2 f_equal.
  unfold flt. destruct (Rlt_dec _ _); [done | lra].
Qed.

Lemma small_p_granger_matrix (sig : R) :
  exists st,
    granger_matrix (Samples.tests_with_p (Fin 0.00004)) Samples.two_series 2 (Fin sig)
    = Returned st.
Proof.
  destruct (granger_matrix_spec (Samples.tests_with_p (Fin 0.00004))
              Samples.two_series 2 (Fin sig)) as (st & Hret & _).
  by exists st.
Qed.

Lemma gold_in_two_series : "Gold" ∈ columns Samples.two_series.
Proof. apply list_elem_of_further, list_elem_of_here. Qed.

Lemma bitcoin_in_two_series : "Bitcoin" ∈ columns Samples.two_series.
Proof. apply list_elem_of_here. Qed.

(** The summary returns as soon as the loop collects a record. *)
Lemma granger_summary_returns
    (tests : DataFrame -> nat -> outcome (gmap nat lag_tests))
    (returns : DataFrame) (max_lag : nat) (significance : float64)
    (st : state) (row : summary_row) :
  granger_matrix tests returns max_lag significance = Returned st ->
  row ∈ omap (row_of significance (p_matrix st))
             (list_prod (columns returns) (columns returns)) ->
  exists out, granger_summary tests returns max_lag significance = Returned out.
Proof.
  intros Hret Hrow. unfold granger_summary. rewrite Hret, bind_returned.
  rewrite (summary_rows_spec tests returns max_lag significance st Hret), bind_returned.
  destruct (omap _ _) as [|r rs]; [by apply not_elem_of_nil in Hrow|].
  by eexists.
Qed.

End GrangerRelationSamples.

Lemma granger_matrix_cell_local_witness :
  exists st st',
    granger_matrix (Samples.tests_with_p (Fin 0.2)) Samples.two_series 2 (Fin 0.05)
    = Returned st /\
    granger_matrix (Samples.tests_with_p (Fin 0.2)) Samples.three_series 2 (Fin 0.05)
    = Returned st' /\
    p_matrix st !! ("Gold", "Bitcoin") = p_matrix st' !! ("Gold", "Bitcoin") /\
    matrix st !! ("Gold", "Bitcoin") = matrix st' !! ("Gold", "Bitcoin").
Proof.
  destruct (granger_matrix_spec (Samples.tests_with_p (Fin 0.2))
              Samples.two_series 2 (Fin 0.05)) as (st & Hret & _).
  destruct (granger_matrix_spec (Samples.tests_with_p (Fin 0.2))
              Samples.three_series 2 (Fin 0.05)) as (st' & Hret' & _).
  exists st, st'. split; [exact Hret|]. split; [exact Hret'|].
  apply (granger_matrix_cell_local (Samples.tests_with_p (Fin 0.2))
           Samples.two_series Samples.three_series 2 (Fin 0.05) st st' "Gold" "Bitcoin").
  - exact two_series_NoDup.
  - exact three_series_NoDup.
  - exact Hret.
  - exact Hret'.
  - exact gold_in_two_series.
  - exact bitcoin_in_two_series.
  - apply list_elem_of_further, list_elem_of_here.
  - apply list_elem_of_here.
  - reflexivity.
Defined.

Lemma granger_matrix_true_defined_witness :
  exists st,
    granger_matrix (Samples.tests_with_p (Fin 0.00004)) Samples.two_series 2 (Fin 0.05)
    = Returned st /\
    "Gold" <> "Bitcoin" /\
    exists p, p_matrix st !! ("Gold", "Bitcoin") = Some p /\ p <> NaN.
Proof.
  destruct (small_p_granger_matrix 0.05) as [st Hret].
  exists st. split; [exact Hret|].
  apply (granger_matrix_true_defined (Samples.tests_with_p (Fin 0.00004))
           Samples.two_series 2 (Fin 0.05) st "Gold" "Bitcoin").
  - exact two_series_NoDup.
  - exact Hret.
  - exact gold_in_two_series.
  - exact bitcoin_in_two_series.
  - destruct (granger_matrix_cells_written _ _ _ _ st "Gold" "Bitcoin" Hret
                gold_in_two_series bitcoin_in_two_series) as [_ ->].
    by rewrite small_p_written by lra.
Defined.

Lemma granger_summary_yes_is_true_witness :
  exists st out row,
    granger_matrix (Samples.tests_with_p (Fin 0.00004)) Samples.two_series 2
                   (Fin (IZR 500 / 10 ^ 4)) = Returned st /\
    granger_summary (Samples.tests_with_p (Fin 0.00004)) Samples.two_series 2
                    (Fin (IZR 500 / 10 ^ 4)) = Returned out /\
    row ∈ out /\ Significant row = "Yes" /\
    matrix st !! (Cause row, Effect row) = Some true.
Proof.
  destruct (small_p_granger_matrix (IZR 500 / 10 ^ 4)) as [st Hret].
  assert (Hsig : (0.00004 < IZR 500 / 10 ^ 4)%R) by (simpl; lra).
  assert (Hrow : {| Cause := "Gold"; Effect := "Bitcoin"; Min_p_value := Fin 0;
                    Significant := "Yes" |}
                 ∈ omap (row_of (Fin (IZR 500 / 10 ^ 4)) (p_matrix st))
                        (list_prod (columns Samples.two_series)
                                   (columns Samples.two_series))).
  { apply list_elem_of_omap. exists ("Gold", "Bitcoin"). split.
    - apply elem_of_list_prod_2.
      split; [exact gold_in_two_series | exact bitcoin_in_two_series].
    - unfold row_of. cbn [fst snd]. rewrite decide_False by done.
      destruct (granger_matrix_cells_written _ _ _ _ st "Gold" "Bitcoin" Hret
                  gold_in_two_series bitcoin_in_two_series) as [-> _].
      rewrite small_p_written by exact Hsig. cbn.
      do 2 f_equal. unfold flt.
      destruct (Rlt_dec _ _) as [|Hn]; [done|]. exfalso. apply Hn. simpl. lra. }
  destruct (granger_summary_returns _ _ _ _ st _ Hret Hrow) as [out Hsum].
  assert (Hin : {| Cause := "Gold"; Effect := "Bitcoin"; Min_p_value := Fin 0;
                   Significant := "Yes" |} ∈ out).
  { by rewrite (granger_summary_perm _ _ _ _ st out Hret Hsum). }
  exists st, out. eexists. split; [exact Hret|]. split; [exact Hsum|].
  split; [exact Hin|]. split; [reflexivity|].
  apply (granger_summary_yes_is_true (Samples.tests_with_p (Fin 0.00004))
           Samples.two_series 2 500 st out _ two_series_NoDup Hret Hsum Hin).
  reflexivity.
Defined.

(** ** granger_summary: the pairs it lists *)

Section SummaryPairs.

Lemma length_filter_pairs_of (x : string) (l : list string) :
  length (filter (fun k : string * string => fst k <> snd k) (map (fun y => (x, y)) l))
  = length (filter (fun y => x <> y) l).
Proof.
  induction l as [|y l IH]; [done|].
  cbn [map]. rewrite !filter_cons. cbn [fst snd].
  destruct (decide (x <> y)); cbn; by rewrite IH.
Qed.

Lemma length_filter_others (x : string) (l : list string) :
  NoDup l -> x ∈ l -> length (filter (fun y => x <> y) l) = (length l - 1)%nat.
Proof.
  induction 1 as [|y l Hy Hnd IH]; intros Hx; [by apply not_elem_of_nil in Hx|].
  rewrite filter_cons. destruct (decide (x <> y)) as [Hne|Heq].
  - apply elem_of_cons in Hx as [->|Hx]; [done|].
    cbn [length]. rewrite IH by done.
    assert (0 < length l)%nat by (destruct l; [by apply not_elem_of_nil in Hx | cbn; lia]).
    lia.
  - apply dec_stable in Heq. subst y.
    assert (Hall : filter (fun y => x <> y) l = l).
    { clear IH Hx Hnd. induction l as [|z l IH]; [done|].
      rewrite filter_cons. rewrite decide_True.
      - f_equal. apply IH. intros Hin. apply Hy. by apply list_elem_of_further.
      - intros ->. apply Hy. apply list_elem_of_here. }
    rewrite Hall. cbn. lia.
Qed.

Lemma length_off_diagonal (l1 l : list string) :
  NoDup l -> Forall (fun x => x ∈ l) l1 ->
  length (filter (fun k : string * string => fst k <> snd k) (list_prod l1 l))
  = (length l1 * (length l - 1))%nat.
Proof.
  intros Hnd Hsub. induction Hsub as [|x l1 Hx _ IH]; [done|].
  cbn [list_prod length]. rewrite filter_app, length_app, IH.
  rewrite length_filter_pairs_of, length_filter_others by done. lia.
Qed.

Lemma pairs_of_rows (sig : float64) (pm : gmap (string * string) float64)
    (ks : list (string * string)) :
  Forall (fun k => is_Some (pm !! k)) ks ->
  map (fun r => (Cause r, Effect r)) (omap (row_of sig pm) ks)
  = filter (fun k : string * string => fst k <> snd k) ks.
Proof.
  induction 1 as [|k ks [p Hp] _ IH]; [done|].
  cbn [omap list_omap]. rewrite filter_cons. unfold row_of at 1.
  destruct (decide (k.1 = k.2)) as [Heq|Hne].
  - rewrite decide_False by (by intros ?). exact IH.
  - rewrite decide_True by done. rewrite Hp. cbn. rewrite IH.
    by destruct k.
Qed.

End SummaryPairs.

(** X10. For a table with [n] distinct column labels, the summary lists
    every ordered pair of different columns exactly once, so it has
    [n * (n - 1)] records, and the p-value of each record is the cell of
    the p-value matrix for its pair. *)
Theorem granger_summary_pairs
    (tests : DataFrame -> nat -> outcome (gmap nat lag_tests))
    (returns : DataFrame) (max_lag : nat) (significance : float64)
    (st : state) (out : list summary_row) :
  NoDup (columns returns) ->
  granger_matrix tests returns max_lag significance = Returned st ->
  granger_summary tests returns max_lag significance = Returned out ->
  map (fun r => (Cause r, Effect r)) out
    ≡ₚ filter (fun k : string * string => fst k <> snd k)
              (list_prod (columns returns) (columns returns)) /\
  length out = (length (columns returns) * (length (columns returns) - 1))%nat /\
  Forall (fun r => p_matrix st !! (Cause r, Effect r) = Some (Min_p_value r)) out.
Proof.
  intros Hnd Hret Hsum.
  pose proof (granger_summary_perm tests returns max_lag significance st out Hret Hsum)
    as Hperm.
  assert (Hkeys : Forall (fun k => is_Some (p_matrix st !! k))
                         (list_prod (columns returns) (columns returns))).
  { apply Forall_forall. intros [c e] Hk. apply elem_of_list_prod_2 in Hk as [Hc He].
    destruct (granger_matrix_cells_written tests returns max_lag significance
                st c e Hret Hc He) as [-> _]. by eexists. }
  assert (Hpairs : map (fun r => (Cause r, Effect r)) out
                   ≡ₚ filter (fun k : string * string => fst k <> snd k)
                             (list_prod (columns returns) (columns returns))).
  { rewrite <- (pairs_of_rows significance (p_matrix st)) by exact Hkeys.
    by apply Permutation_map. }
  split; [exact Hpairs|]. split.
  - rewrite <- (length_map (fun r => (Cause r, Effect r)) out).
    rewrite (Permutation_length Hpairs).
    apply length_off_diagonal; [exact Hnd|]. by apply Forall_forall.
  - rewrite Hperm. apply Forall_forall. intros r Hr.
    apply list_elem_of_omap in Hr as (k & _ & Hk).
    apply row_of_Some in Hk as (_ & -> & -> & Hp & _). by destruct k.
Qed.

Lemma small_p_summary :
  exists st out,
    granger_matrix (Samples.tests_with_p (Fin 0.00004)) Samples.two_series 2 (Fin 0.05)
    = Returned st /\
    granger_summary (Samples.tests_with_p (Fin 0.00004)) Samples.two_series 2 (Fin 0.05)
    = Returned out.
Proof.
  destruct (small_p_granger_matrix 0.05) as [st Hret].
  assert (Hrow : {| Cause := "Gold"; Effect := "Bitcoin"; Min_p_value := Fin 0;
                    Significant := "Yes" |}
                 ∈ omap (row_of (Fin 0.05) (p_matrix st))
                        (list_prod (columns Samples.two_series)
                                   (columns Samples.two_series))).
  { apply list_elem_of_omap. exists ("Gold", "Bitcoin"). split.
    - apply elem_of_list_prod_2.
      split; [exact gold_in_two_series | exact bitcoin_in_two_series].
    - unfold row_of. cbn [fst snd]. rewrite decide_False by done.
      destruct (granger_matrix_cells_written _ _ _ _ st "Gold" "Bitcoin" Hret
                  gold_in_two_series bitcoin_in_two_series) as [-> _].
      rewrite small_p_written by lra. cbn.
      do 2 f_equal. unfold flt.
      destruct (Rlt_dec _ _) as [|Hn]; [done|]. exfalso. apply Hn. lra. }
  destruct (granger_summary_returns _ _ _ _ st _ Hret Hrow) as [out Hsum].
  by exists st, out.
Qed.

Lemma granger_summary_pairs_witness :
  exists st out,
    granger_matrix (Samples.tests_with_p (Fin 0.00004)) Samples.two_series 2 (Fin 0.05)
    = Returned st /\
    granger_summary (Samples.tests_with_p (Fin 0.00004)) Samples.two_series 2 (Fin 0.05)
    = Returned out /\
    map (fun r => (Cause r, Effect r)) out
      ≡ₚ filter (fun k : string * string => fst k <> snd k)
                (list_prod (columns Samples.two_series) (columns Samples.two_series)) /\
    length out = (2 * (2 - 1))%nat /\
    Forall (fun r => p_matrix st !! (Cause r, Effect r) = Some (Min_p_value r)) out.
Proof.
  destruct small_p_summary as (st & out & Hret & Hsum).
  exists st, out. split; [exact Hret|]. split; [exact Hsum|].
  apply (granger_summary_pairs (Samples.tests_with_p (Fin 0.00004))
           Samples.two_series 2 (Fin 0.05) st out two_series_NoDup Hret Hsum).
Defined.

(** ** granger_matrix without a lag to test *)

Lemma min_p_value_no_lag
    (tests : DataFrame -> nat -> outcome (gmap nat lag_tests)) (data : DataFrame) :
  exists err, min_p_value tests data 0 = Raised err.
Proof.
  unfold min_p_value. destruct (tests data 0) as [result|err]; cbn; by eexists.
Qed.

(** X11. With [max_lag = 0] no test can be computed: every p-value cell
    stays undefined, every boolean cell stays False, and a diagnostic is
    printed for every ordered pair of different columns. *)
Theorem granger_matrix_no_lag
    (tests : DataFrame -> nat -> outcome (gmap nat lag_tests))
    (returns : DataFrame) (significance : float64) (st : state) :
  NoDup (columns returns) ->
  granger_matrix tests returns 0 significance = Returned st ->
  forall cause effect,
    cause ∈ columns returns -> effect ∈ columns returns ->
    p_matrix st !! (cause, effect) = Some NaN /\
    matrix st !! (cause, effect) = Some false /\
    (cause <> effect -> exists err, failure_line cause effect err ∈ stdout st).
Proof.
  intros _ Hret c e Hc He.
  destruct (granger_matrix_cells_written tests returns 0 significance st c e Hret Hc He)
    as [Hp Hm].
  destruct (decide (c = e)) as [->|Hne].
  - rewrite written_diagonal in Hp, Hm. done.
  - destruct (getitem_cols_pair returns c e Hc He) as [data Hdata].
    destruct (min_p_value_no_lag tests (dropna data)) as [err Herr].
    destruct (written_raised tests returns 0 significance c e data err Hne Hdata Herr)
      as [Hw Hpr].
    rewrite Hw in Hp, Hm. split; [done|]. split; [done|]. intros _. exists err.
    rewrite (granger_matrix_stdout tests returns 0 significance st Hret).
    apply list_elem_of_omap. exists (c, e).
    split; [by apply elem_of_list_prod_2 | exact Hpr].
Qed.

Lemma granger_matrix_no_lag_witness :
  exists st,
    granger_matrix (Samples.tests_with_p (Fin 0.2)) Samples.two_series 0 (Fin 0.05)
    = Returned st /\
    forall cause effect,
      cause ∈ columns Samples.two_series -> effect ∈ columns Samples.two_series ->
      p_matrix st !! (cause, effect) = Some NaN /\
      matrix st !! (cause, effect) = Some false /\
      (cause <> effect -> exists err, failure_line cause effect err ∈ stdout st).
Proof.
  destruct (granger_matrix_spec (Samples.tests_with_p (Fin 0.2))
              Samples.two_series 0 (Fin 0.05)) as (st & Hret & _).
  exists st. split; [exact Hret|].
  apply (granger_matrix_no_lag (Samples.tests_with_p (Fin 0.2)) Samples.two_series
           (Fin 0.05) st two_series_NoDup Hret).
Defined.

(** ** The forecast tables, whatever the fitted model returns *)

Section ForecastShape.
Local Open Scope R_scope.

Lemma np_exp_not_negative (x : float64) : not_negative (np_exp x).
Proof.
  destruct x as [| | |r]; cbn.
  - by left.
  - right. cbn. lra.
  - by right.
  - right. cbn. apply Rlt_le, exp_pos.
Qed.

Lemma forecast_frame_returned (fc lo up : list float64) (idx : list Timestamp)
    (out : list forecast_row) :
  forecast_frame fc lo up idx = Returned out ->
  length fc = length idx /\ length lo = length idx /\ length up = length idx /\
  length out = length idx /\
  forall (i : nat) row, out !! i = Some row ->
    idx !! i = Some (Date row) /\ fc !! i = Some (Forecast row) /\
    lo !! i = Some (Lower_CI row) /\ up !! i = Some (Upper_CI row).
Proof.
  intros Hret. unfold forecast_frame in Hret.
  destruct (decide _) as [(H1 & H2 & H3)|]; [|done].
  destruct (forecast_frame_spec fc lo up idx H1 H2 H3) as (out' & Hout & Hlen & Hrows).
  unfold forecast_frame in Hout. rewrite decide_True in Hout by done.
  rewrite Hret in Hout. injection Hout as <-. done.
Qed.

Lemma bind_inv {X Y : Type} (m : outcome X) (f : X -> outcome Y) (y : Y) :
  (m ≫= f) = Returned y -> exists x, m = Returned x /\ f x = Returned y.
Proof. destruct m as [x|]; [|done]. intros H. by exists x. Qed.

Lemma list_last_inv {X : Type} (l : list X) (x : X) :
  list_last l = Returned x -> last l = Some x.
Proof. unfold list_last. destruct (last l); [|done]. by intros [= ->]. Qed.

Lemma list_index_elem_of (x : string) (l : list string) (i : nat) :
  list_index x l = Returned i -> x ∈ l.
Proof.
  unfold list_index. destruct (list_find _ l) as [[j y]|] eqn:Hf; [|done].
  intros _. apply list_find_Some in Hf as (Hl & -> & _).
  by eapply list_elem_of_lookup_2.
Qed.

(** What must have happened for [forecast_var] to return. *)
Lemma forecast_var_inv (fitted_model : VARResults) (returns prices : DataFrame)
    (steps : nat) (alpha : float64) (out : list forecast_row) :
  forecast_var fitted_model returns prices steps alpha = Returned out ->
  exists fc_array fc_cov btc_idx btc_prices last_price step_var last_date lo up,
    forecast fitted_model (slice_last (k_ar fitted_model) (values returns)) steps
    = Returned fc_array /\
    Forall (fun r => length r = length (columns returns)) fc_array /\
    forecast_cov fitted_model steps = Returned fc_cov /\
    list_index "Bitcoin" (columns returns) = Returned btc_idx /\
    getitem prices "Bitcoin" = Returned btc_prices /\
    iloc_last btc_prices = Returned last_price /\
    step_variances fc_cov btc_idx steps = Returned step_var /\
    last (index returns) = Some last_date /\
    let log_fc := map (fadd (np_log last_price))
                      (skipna_cumsum (map (fun r => nth btc_idx r NaN) fc_array)) in
    let band := map (fmul z) (cumulative_se step_var) in
    broadcast2 fsub log_fc band = Returned lo /\
    broadcast2 fadd log_fc band = Returned up /\
    forecast_frame (map np_exp log_fc) (map np_exp lo) (map np_exp up)
                   (date_range (last_date + Timedelta_days 1)%Z steps)
    = Returned out.
Proof.
  intros H. unfold forecast_var in H.
  apply bind_inv in H as (fc_array & Hfc & H).
  apply bind_inv in H as (fc_df & Hdf & H).
  unfold frame_of_array in Hdf. destruct (decide _) as [Hshape|]; [|done].
  injection Hdf as <-.
  apply bind_inv in H as (fc_cov & Hcov & H).
  apply bind_inv in H as (btc_idx & Hidx & H).
  apply bind_inv in H as (btc_prices & Hprices & H).
  apply bind_inv in H as (last_price & Hlast & H).
  apply bind_inv in H as (btc_returns & Hret & H).
  unfold getitem in Hret. cbn [columns] in Hret.
  rewrite (list_index_col_pos _ _ _ Hidx) in Hret. injection Hret as <-.
  apply bind_inv in H as (step_var & Hvar & H).
  apply bind_inv in H as (lo & Hlo & H).
  apply bind_inv in H as (up & Hup & H).
  apply bind_inv in H as (last_date & Hdate & H).
  apply list_last_inv in Hdate.
  unfold series_cumsum in Hlo, Hup, H. cbn [entries rows] in Hlo, Hup, H.
  rewrite column_of_array in Hlo, Hup, H by done.
  exists fc_array, fc_cov, btc_idx, btc_prices, last_price, step_var, last_date, lo, up.
  done.
Qed.

End ForecastShape.

(** X12. Whatever the fitted model returns, a table returned by
    [forecast_arima] has exactly [steps] rows, row [i] (from 0) is dated
    [i + 1] days after the last date of the fitted data, and no forecast or
    bound in it is negative. *)
Theorem forecast_arima_returned_shape (fitted_model : ARIMAResults)
    (last_price : float64) (steps : nat) (alpha : float64) (out : list forecast_row) :
  forecast_arima fitted_model last_price steps alpha = Returned out ->
  length out = steps /\
  exists last_date,
    last (model_data_dates fitted_model) = Some last_date /\
    forall (i : nat) row, out !! i = Some row ->
      Date row = (last_date + Timedelta_days (Z.of_nat i + 1))%Z /\
      not_negative (Forecast row) /\ not_negative (Lower_CI row) /\
      not_negative (Upper_CI row).
Proof.
  intros H. unfold forecast_arima in H.
  apply bind_inv in H as (forecast_obj & _ & H).
  apply bind_inv in H as (last_date & Hdate & H).
  apply list_last_inv in Hdate.
  apply forecast_frame_returned in H as (_ & _ & _ & Hlen & Hrows).
  rewrite length_date_range in Hlen. split; [exact Hlen|].
  exists last_date. split; [exact Hdate|]. intros i row Hrow.
  destruct (Hrows i row Hrow) as (Hd & Hf & Hl & Hu).
  apply date_range_lookup in Hd.
  rewrite lookup_map in Hf. rewrite lookup_map in Hl. rewrite lookup_map in Hu.
  apply fmap_Some in Hf as (m & _ & ->).
  apply fmap_Some in Hl as (b & _ & ->).
  apply fmap_Some in Hu as (b' & _ & ->).
  split; [rewrite Hd; unfold Timedelta_days; lia|].
  split; [|split]; apply np_exp_not_negative.
Qed.

Lemma forecast_arima_returned_shape_witness :
  exists out,
    forecast_arima Samples.walk_model (Fin 60000) 3 (Fin 0.05) = Returned out /\
    length out = 3%nat /\
    exists last_date,
      last (model_data_dates Samples.walk_model) = Some last_date /\
      forall (i : nat) row, out !! i = Some row ->
        Date row = (last_date + Timedelta_days (Z.of_nat i + 1))%Z /\
        not_negative (Forecast row) /\ not_negative (Lower_CI row) /\
        not_negative (Upper_CI row).
Proof.
  eexists. split; [reflexivity|].
  apply (forecast_arima_returned_shape Samples.walk_model (Fin 60000) 3 (Fin 0.05)).
  reflexivity.
Defined.

(** X13. Whatever the fitted model returns, a table returned by
    [forecast_var] has exactly [steps] rows, row [i] (from 0) is dated
    [i + 1] days after the last date of the returns, and no forecast or
    bound in it is negative. *)
Theorem forecast_var_returned_shape (fitted_model : VARResults)
    (returns prices : DataFrame) (steps : nat) (alpha : float64)
    (out : list forecast_row) :
  forecast_var fitted_model returns prices steps alpha = Returned out ->
  length out = steps /\
  exists last_date,
    last (index returns) = Some last_date /\
    forall (i : nat) row, out !! i = Some row ->
      Date row = (last_date + Timedelta_days (Z.of_nat i + 1))%Z /\
      not_negative (Forecast row) /\ not_negative (Lower_CI row) /\
      not_negative (Upper_CI row).
Proof.
  intros H.
  apply forecast_var_inv in H
    as (fc_array & fc_cov & btc_idx & btc_prices & last_price & step_var
        & last_date & lo & up & _ & _ & _ & _ & _ & _ & _ & Hdate & _ & _ & H).
  apply forecast_frame_returned in H as (_ & _ & _ & Hlen & Hrows).
  rewrite length_date_range in Hlen. split; [exact Hlen|].
  exists last_date. split; [exact Hdate|]. intros i row Hrow.
  destruct (Hrows i row Hrow) as (Hd & Hf & Hl & Hu).
  apply date_range_lookup in Hd.
  rewrite lookup_map in Hf. rewrite lookup_map in Hl. rewrite lookup_map in Hu.
  apply fmap_Some in Hf as (m & _ & ->).
  apply fmap_Some in Hl as (b & _ & ->).
  apply fmap_Some in Hu as (b' & _ & ->).
  split; [rewrite Hd; unfold Timedelta_days; lia|].
  split; [|split]; apply np_exp_not_negative.
Qed.

Lemma forecast_var_returned_shape_witness :
  exists out,
    forecast_var Samples.flat_var Samples.two_series Samples.two_prices 2 (Fin 0.05)
    = Returned out /\
    length out = 2%nat /\
    exists last_date,
      last (index Samples.two_series) = Some last_date /\
      forall (i : nat) row, out !! i = Some row ->
        Date row = (last_date + Timedelta_days (Z.of_nat i + 1))%Z /\
        not_negative (Forecast row) /\ not_negative (Lower_CI row) /\
        not_negative (Upper_CI row).
Proof.
  eexists. split; [reflexivity|].
  apply (forecast_var_returned_shape Samples.flat_var Samples.two_series
           Samples.two_prices 2 (Fin 0.05)).
  reflexivity.
Defined.

(** X14. The target series is fixed by name: when the returns have no
    column "Bitcoin", [forecast_var] raises, whatever the fitted model and
    the prices are. *)
Theorem forecast_var_needs_bitcoin (fitted_model : VARResults)
    (returns prices : DataFrame) (steps : nat) (alpha : float64) :
  "Bitcoin" ∉ columns returns ->
  exists e, forecast_var fitted_model returns prices steps alpha = Raised e.
Proof.
  intros Hno.
  destruct (forecast_var fitted_model returns prices steps alpha) as [out|e] eqn:H;
    [|by exists e].
  apply forecast_var_inv in H
    as (fc_array & fc_cov & btc_idx & btc_prices & last_price & step_var
        & last_date & lo & up & _ & _ & _ & Hidx & _).
  apply list_index_elem_of in Hidx. contradiction.
Qed.

Lemma forecast_var_needs_bitcoin_witness :
  exists e,
    forecast_var Samples.flat_var Samples.gold_only Samples.two_prices 2 (Fin 0.05)
    = Raised e.
Proof.
  apply (forecast_var_needs_bitcoin Samples.flat_var Samples.gold_only
           Samples.two_prices 2 (Fin 0.05)).
  by intros ?%list_elem_of_singleton.
Defined.

(** X15. With a lag order of at least one, [forecast_var] reads the return
    history only through its column labels, its last index label and its
    last [k_ar] rows: two histories that agree on these give the same
    outcome. *)
Theorem forecast_var_seed_window (fitted_model : VARResults)
    (returns returns' prices : DataFrame) (steps : nat) (alpha : float64) :
  (1 <= k_ar fitted_model)%nat ->
  columns returns = columns returns' ->
  last (index returns) = last (index returns') ->
  drop (length (values returns) - k_ar fitted_model) (values returns)
  = drop (length (values returns') - k_ar fitted_model) (values returns') ->
  forecast_var fitted_model returns prices steps alpha
  = forecast_var fitted_model returns' prices steps alpha.
Proof.
  intros Hlag Hcols Hlast Hrows. unfold forecast_var, slice_last, list_last.
  rewrite !decide_False by lia. by rewrite Hcols, Hlast, Hrows.
Qed.

Lemma forecast_var_seed_window_witness :
  forecast_var Samples.flat_var Samples.two_series Samples.two_prices 2 (Fin 0.05)
  = forecast_var Samples.flat_var Samples.two_series_recent Samples.two_prices 2 (Fin 0.05).
Proof.
  apply (forecast_var_seed_window Samples.flat_var Samples.two_series
           Samples.two_series_recent Samples.two_prices 2 (Fin 0.05)).
  - cbn. lia.
  - reflexivity.
  - reflexivity.
  - reflexivity.
Defined.

(** ** forecast_var on finite forecasts *)

Section ForecastVarFinite.
Local Open Scope R_scope.

Lemma cumsum_from_fin (a : R) (rs : list R) (h : nat) :
  (h < length rs)%nat ->
  cumsum_from (Fin a) (map Fin rs) !! h = Some (Fin (a + Rsum (take (S h) rs))).
Proof.
  revert a h. induction rs as [|r rs IH]; intros a h Hh; [cbn in Hh; lia|].
  cbn [map cumsum_from fadd]. destruct h as [|h].
  - cbn. do 2 f_equal. destruct rs; cbn; lra.
  - rewrite lookup_cons_ne_0 by lia. cbn [Nat.pred].
    rewrite IH by (cbn in Hh; lia). do 2 f_equal.
    change (take (S (S h)) (r :: rs)) with (r :: take (S h) rs). cbn [Rsum foldr].
    fold (Rsum (take (S h) rs)). lra.
Qed.

Lemma cumsum_fin (rs : list R) (h : nat) :
  (h < length rs)%nat ->
  cumsum (map Fin rs) !! h = Some (Fin (Rsum (take (S h) rs))).
Proof.
  destruct rs as [|r rs]; intros Hh; [cbn in Hh; lia|].
  cbn [map cumsum]. destruct h as [|h].
  - cbn. do 2 f_equal. destruct rs; cbn; lra.
  - rewrite lookup_cons_ne_0 by lia. cbn [Nat.pred].
    rewrite cumsum_from_fin by (cbn in Hh; lia).
    change (take (S (S h)) (r :: rs)) with (r :: take (S h) rs). done.
Qed.

Lemma zip_with_restore_fin (rs : list R) (l : list float64) :
  length l = length rs ->
  zip_with (fun x c => if isnan x then NaN else c) (map Fin rs) l = l.
Proof.
  revert l. induction rs as [|r rs IH]; intros [|c l] Hl; cbn in *; try done.
  f_equal. apply IH. lia.
Qed.

Lemma skipna_cumsum_fin (rs : list R) :
  skipna_cumsum (map Fin rs) = cumsum (map Fin rs).
Proof.
  unfold skipna_cumsum.
  assert (Hid : map (fun x => if isnan x then Fin 0 else x) (map Fin rs) = map Fin rs).
  { induction rs as [|r rs IH]; [done|]. cbn. by rewrite IH. }
  rewrite Hid. apply zip_with_restore_fin. by rewrite length_cumsum, length_map.
Qed.

(** A band of a non-negative variance around a finite point encloses it. *)
Lemma band_encloses (pt : R) (v : float64) :
  nonneg v ->
  fle (fsub (Fin pt) (fmul z (np_sqrt v))) (Fin pt) /\
  fle (Fin pt) (fadd (Fin pt) (fmul z (np_sqrt v))).
Proof.
  unfold nonneg, z, np_sqrt. destruct v as [| | |x]; cbn; try done.
  - intros _. unfold signed_inf. destruct (Rlt_dec 0 1.959964); [done | lra].
  - intros Hx. destruct (Rlt_dec x 0); [lra|]. cbn.
    pose proof (sqrt_pos x). nra.
Qed.

End ForecastVarFinite.

(** X17. When the forecast returns of the target are finite, the last
    price is positive and the own variances of the target are not negative,
    every row of [forecast_var] has its lower bound, forecast and upper
    bound in this order. *)
Theorem forecast_var_bounds_ordered (fitted_model : VARResults)
    (returns prices : DataFrame) (steps : nat) (alpha : float64)
    (fc_array : list (list float64)) (fc_cov : list (list (list float64)))
    (btc_idx : nat) (rs : list R) (step_var : list float64)
    (btc_prices : Series) (p : R) (out : list forecast_row) :
  forecast fitted_model (slice_last (k_ar fitted_model) (values returns)) steps
  = Returned fc_array ->
  list_index "Bitcoin" (columns returns) = Returned btc_idx ->
  map (fun r => nth btc_idx r NaN) fc_array = map Fin rs ->
  forecast_cov fitted_model steps = Returned fc_cov ->
  step_variances fc_cov btc_idx steps = Returned step_var ->
  Forall nonneg step_var ->
  getitem prices "Bitcoin" = Returned btc_prices ->
  iloc_last btc_prices = Returned (Fin p) -> (0 < p)%R ->
  forecast_var fitted_model returns prices steps alpha = Returned out ->
  Forall (fun row => fle (Lower_CI row) (Forecast row)
                     /\ fle (Forecast row) (Upper_CI row)) out.
Proof.
  intros Hfc Hidx Hfin Hcov Hvar Hnn Hprices Hlast Hp H.
  apply forecast_var_inv in H
    as (fc_array' & fc_cov' & btc_idx' & btc_prices' & last_price & step_var'
        & last_date & lo & up & Hfc' & _ & Hcov' & Hidx' & Hprices' & Hlast' & Hvar'
        & _ & Hlo & Hup & H).
  rewrite Hfc in Hfc'. injection Hfc' as <-.
  rewrite Hcov in Hcov'. injection Hcov' as <-.
  rewrite Hidx in Hidx'. injection Hidx' as <-.
  rewrite Hprices in Hprices'. injection Hprices' as <-.
  rewrite Hlast in Hlast'. injection Hlast' as <-.
  rewrite Hvar in Hvar'. injection Hvar' as <-.
  rewrite Hfin, skipna_cumsum_fin in Hlo, Hup, H.
  pose proof (length_step_variances _ _ _ _ Hvar) as Hlv.
  apply forecast_frame_returned in H as (Hl1 & _ & _ & _ & Hrows).
  rewrite !length_map, length_date_range in Hl1.
  unfold broadcast2 in Hlo, Hup.
  rewrite decide_True in Hlo
    by (by rewrite !length_map, length_cumulative_se, Hl1, Hlv).
  rewrite decide_True in Hup
    by (by rewrite !length_map, length_cumulative_se, Hl1, Hlv).
  injection Hlo as <-. injection Hup as <-.
  destruct (cumsum_nondecreasing step_var Hnn) as [_ Hcs].
  apply Forall_lookup_2. intros h row Hrow.
  destruct (Hrows h row Hrow) as (_ & Hf & Hl & Hu).
  rewrite lookup_map in Hl. rewrite lookup_map in Hu.
  rewrite lookup_zip_with in Hl. rewrite lookup_zip_with in Hu.
  rewrite !lookup_map in Hf. rewrite !lookup_map in Hl. rewrite !lookup_map in Hu.
  destruct (cumsum (map Fin rs) !! h) as [c|] eqn:Hc; [|done].
  assert (Hh : (h < length rs)%nat).
  { apply lookup_lt_Some in Hc. by rewrite length_cumsum, length_map in Hc. }
  rewrite cumsum_fin in Hc by done. injection Hc as <-.
  unfold cumulative_se in Hl, Hu.
  rewrite !lookup_map in Hl. rewrite !lookup_map in Hu.
  destruct (cumsum step_var !! h) as [v|] eqn:Hv; [|done].
  pose proof (Forall_lookup_1 _ _ _ _ Hcs Hv) as Hvn.
  cbn in Hf, Hl, Hu. injection Hf as <-. injection Hl as <-. injection Hu as <-.
  rewrite np_log_pos by done. cbn [fadd].
  destruct (band_encloses (ln p + Rsum (take (S h) rs)) v Hvn) as [Hlow Hupp].
  split; by apply np_exp_mono.
Qed.

Lemma forecast_var_bounds_ordered_witness :
  exists out,
    forecast_var Samples.flat_var Samples.two_series Samples.two_prices 2 (Fin 0.05)
    = Returned out /\
    Forall (fun row => fle (Lower_CI row) (Forecast row)
                       /\ fle (Forecast row) (Upper_CI row)) out.
Proof.
  eexists. split; [reflexivity|].
  apply (forecast_var_bounds_ordered Samples.flat_var Samples.two_series
           Samples.two_prices 2 (Fin 0.05)
           (replicate 2 [Fin 0.01; Fin 0.01])
           (replicate 2 [[Fin 0.0004; Fin 0]; [Fin 0; Fin 0.0004]])
           0 [0.01; 0.01]%R [Fin 0.0004; Fin 0.0004]
           {| name := "Bitcoin";
              entries := [(Timedelta_days 0, Fin 100); (Timedelta_days 1, Fin 101);
                          (Timedelta_days 2, Fin 99)] |}
           99).
  - reflexivity.
  - reflexivity.
  - reflexivity.
  - reflexivity.
  - reflexivity.
  - repeat constructor; cbn; lra.
  - reflexivity.
  - reflexivity.
  - lra.
  - reflexivity.
Defined.

(** ** The two forecasts side by side *)

Section ForecastDates.

Lemma forecast_frame_dates (fc lo up : list float64) (idx : list Timestamp)
    (out : list forecast_row) :
  forecast_frame fc lo up idx = Returned out -> map Date out = idx.
Proof.
  intros H. apply forecast_frame_returned in H as (_ & _ & _ & Hlen & Hrows).
  apply list_eq. intros i. rewrite lookup_map.
  destruct (out !! i) as [row|] eqn:Hrow; cbn.
  - by destruct (Hrows i row Hrow) as (-> & _).
  - symmetry. apply lookup_ge_None. apply lookup_ge_None in Hrow. lia.
Qed.

Lemma log_returns_index (df out : DataFrame) :
  rectangular df -> columns df <> [] -> positive_prices df ->
  log_returns df = Returned out -> index out = tail (index df).
Proof.
  intros Hrect Hcols Hpos Hret. rewrite log_returns_rows in Hret.
  injection Hret as <-. destruct df as [cols rs].
  unfold rectangular, positive_prices, index in *. cbn [columns rows] in *.
  destruct rs as [|[t0 c0] rs]; [done|].
  apply Forall_cons in Hrect as [Hl0 _]. apply Forall_cons in Hpos as [Hp0 Hprs].
  cbn [fst snd] in *. cbn [ratio_rows fst snd]. rewrite filter_cons_False.
  - rewrite ratio_rows_complete by assumption. cbn [map tail].
    apply map_fst_ratio_rows.
  - rewrite first_row_incomplete; [by intros []|done|].
    destruct cols; [done | cbn; lia].
Qed.

Lemma last_tail {X : Type} (l : list X) (x : X) :
  last (tail l) = Some x -> last l = Some x.
Proof. destruct l as [|y l]; [done|]. cbn [tail]. by destruct l. Qed.

End ForecastDates.

(** X18. The two forecasts of the pipeline are aligned: for an ARIMA model
    fitted on the dates of a table of positive prices and a VAR forecast
    from the returns of the same table, the tables returned by
    [forecast_arima] and [forecast_var] for the same number of steps carry
    the same dates, row by row. *)
Theorem forecasts_share_dates (arima : ARIMAResults) (var : VARResults)
    (prices returns : DataFrame) (steps : nat) (last_price alpha alpha' : float64)
    (out_arima out_var : list forecast_row) :
  rectangular prices -> columns prices <> [] -> positive_prices prices ->
  log_returns prices = Returned returns ->
  model_data_dates arima = index prices ->
  forecast_arima arima last_price steps alpha = Returned out_arima ->
  forecast_var var returns prices steps alpha' = Returned out_var ->
  map Date out_arima = map Date out_var.
Proof.
  intros Hrect Hcols Hpos Hret Hdates Ha Hv.
  pose proof (log_returns_index prices returns Hrect Hcols Hpos Hret) as Hidx.
  unfold forecast_arima in Ha.
  apply bind_inv in Ha as (forecast_obj & _ & Ha).
  apply bind_inv in Ha as (last_a & Hlast_a & Ha).
  apply list_last_inv in Hlast_a. apply forecast_frame_dates in Ha.
  apply forecast_var_inv in Hv
    as (fc_array & fc_cov & btc_idx & btc_prices & lp & step_var
        & last_v & lo & up & _ & _ & _ & _ & _ & _ & _ & Hlast_v & _ & _ & Hv).
  apply forecast_frame_dates in Hv.
  rewrite Hidx in Hlast_v. apply last_tail in Hlast_v.
  rewrite Hdates in Hlast_a.
  assert (Heq : Some last_a = Some last_v)
    by exact (eq_trans (eq_sym Hlast_a) Hlast_v).
  injection Heq as <-.
  by rewrite Ha, Hv.
Qed.

Lemma log_returns_positive_rows (cols : list string) (r0 : Timestamp * list float64)
    (rs : list (Timestamp * list float64)) :
  rectangular {| columns := cols; rows := r0 :: rs |} -> cols <> [] ->
  positive_prices {| columns := cols; rows := r0 :: rs |} ->
  log_returns {| columns := cols; rows := r0 :: rs |}
  = Returned {| columns := cols; rows := ratio_rows (snd r0) rs |}.
Proof.
  intros Hrect Hcols Hpos. rewrite log_returns_rows.
  unfold rectangular, positive_prices in *. cbn [columns rows] in *.
  apply Forall_cons in Hrect as [Hl0 _]. apply Forall_cons in Hpos as [Hp0 Hprs].
  cbn [ratio_rows]. rewrite filter_cons_False.
  - by rewrite ratio_rows_complete by assumption.
  - destruct r0 as [t0 c0]. cbn [fst snd] in *.
    rewrite first_row_incomplete; [by intros []|done|].
    destruct cols; [done | cbn; lia].
Qed.

Lemma two_prices_rectangular : rectangular Samples.two_prices.
Proof. repeat constructor. Qed.

Lemma two_prices_positive : positive_prices Samples.two_prices.
Proof.
  unfold positive_prices, positive. cbn.
  repeat (apply Forall_cons; split);
    first [apply Forall_nil_2 | eexists; split; [reflexivity | lra]].
Qed.

Lemma forecasts_share_dates_witness :
  exists returns out_arima out_var,
    log_returns Samples.two_prices = Returned returns /\
    forecast_arima Samples.price_walk (Fin 99) 2 (Fin 0.05) = Returned out_arima /\
    forecast_var Samples.flat_var returns Samples.two_prices 2 (Fin 0.05)
    = Returned out_var /\
    map Date out_arima = map Date out_var.
Proof.
  pose proof (log_returns_positive_rows _ _ _ two_prices_rectangular
                ltac:(discriminate) two_prices_positive) as Hret.
  exists {| columns := ["Bitcoin"; "Gold"];
            rows := ratio_rows [Fin 100; Fin 2000]
                      [(Timedelta_days 1, [Fin 101; Fin 2004]);
                       (Timedelta_days 2, [Fin 99; Fin 2006])] |}.
  do 2 eexists. split; [exact Hret|]. split; [reflexivity|]. split; [reflexivity|].
  apply (forecasts_share_dates Samples.price_walk Samples.flat_var Samples.two_prices
           {| columns := ["Bitcoin"; "Gold"];
              rows := ratio_rows [Fin 100; Fin 2000]
                        [(Timedelta_days 1, [Fin 101; Fin 2004]);
                         (Timedelta_days 2, [Fin 99; Fin 2006])] |}
           2 (Fin 99) (Fin 0.05) (Fin 0.05)).
  - exact two_prices_rectangular.
  - discriminate.
  - exact two_prices_positive.
  - exact Hret.
  - reflexivity.
  - reflexivity.
  - reflexivity.
Defined.
